(** * server.py: the Moonsec deobfuscator HTTP shim

    A shallow embedding of [src/server.py].  The file has two halves:

    - the pure output formatter [format_output] over Python strings, with
      the string built-ins it calls ([str.split], [str.join], [str.rstrip],
      [str.strip], [str.replace]);
    - the request handler [deobfuscate], written in a small state and
      exception monad over an explicit file system and an oracle for the
      external processes it spawns.

    Conventions.  A Python [str] is a list of Unicode code points.  Paths
    are joined the POSIX way.  [print] calls are not modelled (they write to
    the server's console only). *)

From Stdlib Require Import ZArith NArith QArith Floats.SpecFloat.
From stdpp Require Import base list strings gmap.

Local Open Scope N_scope.
Local Open Scope list_scope.

(** ** Python strings *)

Module PyStr.

Definition char := N.
Definition text := list char.

(** A literal of the source, as code points. *)
Definition str (s : string) : text :=
  map Ascii.N_of_ascii (String.list_ascii_of_string s).

Definition NL : char := 10.

(** [Py_UNICODE_ISSPACE]: the characters [str.strip] and [str.rstrip]
    (called without argument) remove. *)
Definition is_space (c : char) : bool :=
  ((9 <=? c) && (c <=? 13)) || ((28 <=? c) && (c <=? 32))
  || (c =? 133) || (c =? 160) || (c =? 5760)
  || ((8192 <=? c) && (c <=? 8202))
  || (c =? 8232) || (c =? 8233) || (c =? 8239) || (c =? 8287)
  || (c =? 12288).

(** Truth value of a string: [if s:] *)
Definition nonempty (s : text) : bool :=
  match s with [] => false | _ :: _ => true end.

(** [s.split(sep)] for a one-character separator. *)
Fixpoint split (sep : char) (s : text) : list text :=
  match s with
  | [] => [[]]
  | c :: s' =>
      if c =? sep then [] :: split sep s'
      else match split sep s' with
           | l :: ls => (c :: l) :: ls
           | [] => [[c]]
           end
  end.

(** [sep.join(parts)] *)
Fixpoint join (sep : text) (parts : list text) : text :=
  match parts with
  | [] => []
  | p :: ps =>
      match ps with
      | [] => p
      | _ :: _ => p ++ sep ++ join sep ps
      end
  end.

(** [s.rstrip()] *)
Fixpoint rstrip (s : text) : text :=
  match s with
  | [] => []
  | c :: s' =>
      match rstrip s' with
      | [] => if is_space c then [] else [c]
      | r => c :: r
      end
  end.

(** [s.lstrip()] *)
Fixpoint lstrip (s : text) : text :=
  match s with
  | [] => []
  | c :: s' => if is_space c then lstrip s' else s
  end.

(** [s.strip()] *)
Definition strip (s : text) : text := rstrip (lstrip s).

Fixpoint starts_with (p s : text) : bool :=
  match p, s with
  | [], _ => true
  | _ :: _, [] => false
  | a :: p', b :: s' => (a =? b) && starts_with p' s'
  end.

(** [s.replace(old, new)] for a non-empty [old]: occurrences are replaced
    from left to right and do not overlap.  [skip] counts the characters of
    a matched occurrence still to be passed over. *)
Fixpoint replace_from (old new : text) (skip : nat) (s : text) : text :=
  match s with
  | [] => []
  | c :: s' =>
      match skip with
      | S n => replace_from old new n s'
      | O =>
          if starts_with old s
          then new ++ replace_from old new (length old - 1) s'
          else c :: replace_from old new 0 s'
      end
  end.

Definition replace (old new s : text) : text := replace_from old new 0 s.

Definition CR : char := 13.

(** What reading in text mode does to line endings (universal newlines):
    a carriage return becomes a line feed, and a line feed that follows a
    carriage return is dropped with it.  [after_cr] tells that the
    character before was a carriage return. *)
Fixpoint translate_from (after_cr : bool) (s : text) : text :=
  match s with
  | [] => []
  | c :: s' =>
      if c =? CR then NL :: translate_from true s'
      else if (c =? NL) && after_cr then translate_from false s'
      else c :: translate_from false s'
  end.

Definition translate_newlines (s : text) : text := translate_from false s.

(** [needle in s] on strings: substring test. *)
Fixpoint contains (needle s : text) : bool :=
  starts_with needle s
  || match s with
     | [] => false
     | _ :: s' => contains needle s'
     end.

End PyStr.

Import PyStr.

(** ** The output formatter (server.py, [format_output]) *)

Definition SEMI : char := 59.
Definition LBRACE : char := 123.
Definition RBRACE : char := 125.

(** The loop of the disassembly branch: strip each line on the right and
    append it when something is left. *)
Definition dis_step (formatted : list text) (line : text) : list text :=
  let line := rstrip line in
  if nonempty line then formatted ++ [line] else formatted.

Definition format_output (content : text) (is_disassembly : bool) : text :=
  if negb (nonempty content) then content
  else if is_disassembly then
    let lines := split NL content in
    let formatted := fold_left dis_step lines [] in
    join [NL] formatted
  else
    let formatted := replace [SEMI] [SEMI; NL] content in
    let formatted := replace [LBRACE] [LBRACE; NL] formatted in
    let formatted := replace [RBRACE] [NL; RBRACE] formatted in
    let lines := split NL formatted in
    let lines := map rstrip (filter (fun line => nonempty (strip line) = true) lines) in
    join [NL] lines.

(** ** JSON values, as [request.get_json()] returns them *)

Module Json.

(** A decoded JSON document.  A Python [dict] is written as the list of
    its items; the first binding of a key is the one the dict holds.
    Floats only matter through their truth value, which [spec_float]
    decides. *)
#[warnings="-register-all"] Inductive json : Type :=
| JNull
| JBool (b : bool)
| JInt (z : Z)
| JFloat (f : spec_float)
| JStr (s : text)
| JList (items : list json)
| JDict (items : list (text * json)).

(** [bool(v)], the test behind [if v:] and [not v]. *)
Definition truthy (v : json) : bool :=
  match v with
  | JNull => false
  | JBool b => b
  | JInt z => negb (z =? 0)%Z
  | JFloat f => match f with S754_zero _ => false | _ => true end
  | JStr s => nonempty s
  | JList items => match items with [] => false | _ :: _ => true end
  | JDict items => match items with [] => false | _ :: _ => true end
  end.

(** [type(v).__name__], as error messages quote it. *)
Definition type_name (v : json) : text :=
  match v with
  | JNull => str "NoneType"
  | JBool _ => str "bool"
  | JInt _ => str "int"
  | JFloat _ => str "float"
  | JStr _ => str "str"
  | JList _ => str "list"
  | JDict _ => str "dict"
  end.

Definition is_str (key : text) (v : json) : bool :=
  match v with
  | JStr s => bool_decide (s = key)
  | _ => false
  end.

Fixpoint assoc (key : text) (items : list (text * json)) : option json :=
  match items with
  | [] => None
  | (k, v) :: rest => if bool_decide (k = key) then Some v else assoc key rest
  end.

(** [key in v] for a string [key]: a key of a dict, an element of a list,
    a substring of a string; [None] stands for the [TypeError] raised on
    the other values. *)
Definition py_in (key : text) (v : json) : option bool :=
  match v with
  | JDict items => Some (bool_decide (is_Some (assoc key items)))
  | JList items => Some (existsb (is_str key) items)
  | JStr s => Some (contains key s)
  | JNull | JBool _ | JInt _ | JFloat _ => None
  end.

(** [v[key]] for a string [key]: only a dict can be indexed by a string. *)
Definition py_getitem (v : json) (key : text) : option json :=
  match v with
  | JDict items => assoc key items
  | _ => None
  end.

(** [v.get(key, default)]: only a dict has the method. *)
Definition py_get (v : json) (key : text) (dflt : json) : option json :=
  match v with
  | JDict items => Some (default dflt (assoc key items))
  | _ => None
  end.

End Json.

Import Json.

(** ** The world outside the handler *)

(** What a spawned process does when left alone: it cannot be started
    ([OSError] from [Popen]), or it runs for [after] seconds and exits.
    A process that never exits is, under a timeout, the same as one that
    exits too late; without a timeout [subprocess.run] would not return,
    and processes are taken to exit.  [stdout] and [stderr] are the two
    streams as text: decoded with the bytes that do not decode left out,
    and with the line endings translated. *)
Inductive behaviour : Type :=
| CannotStart (msg : text)
| Exits (after : Q) (returncode : Z) (stdout stderr : text).

(** The answer of the process oracle: the behaviour, whether the output
    holds bytes that do not decode ([text=True] alone decodes strictly and
    raises on them; with [errors='ignore'] they are left out), and the
    file system as it is when [subprocess.run] returns or raises. *)
Record proc : Type := {
  behaves : behaviour;
  garbled : bool;
  files_after : gmap text text
}.

(** Errors raised by the interpreter and the standard library; their
    wording belongs to the Python version and is a parameter. *)
Inductive fault : Type :=
| NotAContainer (ty : text)     (* [x in v] on a number, a boolean or None *)
| NotSubscriptable (ty : text)  (* [v[key]] with a string key on a non-dict *)
| NoSuchMethod (ty : text)      (* [v.get] on a non-dict *)
| WriteNotStr (ty : text)       (* [f.write(v)] with a non-string *)
| NotEncodable                  (* a lone surrogate written as UTF-8 *)
| NotDecodable                  (* process output that does not decode *)
| NoSuchFile                    (* open or unlink of a missing path *)
| Expired.                      (* [str] of [subprocess.TimeoutExpired] *)

Record world : Type := {
  (** [spawn cwd argv files]: what running [argv] in directory [cwd]
      does on the file system [files]. *)
  spawn : option text → list text → gmap text text → proc;
  (** The name [NamedTemporaryFile] picks, without the suffix. *)
  tmp_stem : text;
  (** [os.unlink] refusing a path, with the error text. *)
  unlink_refused : text → option text;
  (** [open] refusing a path that exists (a directory, a file that may not
      be read), with the error text. *)
  open_refused : text → option text;
  wording : fault → text
}.

(** ** State and exceptions *)

Inductive exn : Type :=
| TimeoutExpired
| Error (msg : text).

(** One call of [subprocess.run], as the handler made it and as the world
    answered it. *)
Record event : Type := {
  ev_cwd : option text;
  ev_argv : list text;
  ev_timeout : option Q;
  ev_files : gmap text text;      (* the file system when it was spawned *)
  ev_proc : proc
}.

(** A file system maps the paths that exist to their content (a directory
    exists with whatever content); the trace lists the processes run.  The
    content of a file is the text its bytes decode to as UTF-8 when the
    bytes that do not decode are left out, with its line endings as they
    are stored. *)
Record state : Type := {
  files : gmap text text;
  trace : list event
}.

Definition start (fs : gmap text text) : state :=
  {| files := fs; trace := [] |}.

Definition M (A : Type) : Type := state → (exn + A) * state.

Definition ret {A} (a : A) : M A := λ st, (inr a, st).

Definition raise {A} (e : exn) : M A := λ st, (inl e, st).

Definition bind {A B} (m : M A) (k : A → M B) : M B :=
  λ st, match m st with
        | (inl e, st') => (inl e, st')
        | (inr a, st') => k a st'
        end.

Notation "x <- m ;; k" := (bind m (λ x, k))
  (at level 100, m at next level, right associativity).
Notation "m ;;; k" := (bind m (λ _, k))
  (at level 100, right associativity).

(** [try: m  except Exception as e: h e] *)
Definition try_except {A} (m : M A) (h : exn → M A) : M A :=
  λ st, match m st with
        | (inl e, st') => h e st'
        | (inr a, st') => (inr a, st')
        end.

(** [try: m  finally: c]; an exception of [c] replaces the outcome. *)
Definition try_finally {A} (m : M A) (c : M unit) : M A :=
  λ st, match m st with
        | (r, st') =>
            match c st' with
            | (inl e, st'') => (inl e, st'')
            | (inr _, st'') => (r, st'')
            end
        end.

(** An operation that raises a [TypeError] and the like when it has no
    value. *)
Definition or_raise {A} (e : exn) (o : option A) : M A :=
  match o with
  | Some a => ret a
  | None => raise e
  end.

Section Handler.

Variable w : world.

Definition oops (f : fault) : exn := Error (wording w f).

(** [str(e)] *)
Definition exn_text (e : exn) : text :=
  match e with
  | TimeoutExpired => wording w Expired
  | Error msg => msg
  end.

(** *** File system *)

(** [Path.exists], [os.path.exists] *)
Definition path_exists (p : text) : M bool :=
  λ st, (inr (bool_decide (is_Some (files st !! p))), st).

(** [open(p, 'r', encoding='utf-8', errors='ignore').read()]: text mode
    translates the line endings. *)
Definition read_file (p : text) : M text :=
  λ st, match files st !! p with
        | Some content =>
            match open_refused w p with
            | Some msg => (inl (Error msg), st)
            | None => (inr (translate_newlines content), st)
            end
        | None => (inl (oops NoSuchFile), st)
        end.

(** [os.unlink] *)
Definition unlink (p : text) : M unit :=
  λ st, match unlink_refused w p with
        | Some msg => (inl (Error msg), st)
        | None =>
            match files st !! p with
            | Some _ => (inr (), {| files := delete p (files st); trace := trace st |})
            | None => (inl (oops NoSuchFile), st)
            end
        end.

Definition put_file (p content : text) : M unit :=
  λ st, (inr (), {| files := <[p := content]> (files st); trace := trace st |}).

(** UTF-8 cannot encode the surrogates U+D800..U+DFFF. *)
Definition encodable (c : char) : bool := negb ((55296 <=? c) && (c <=? 57343)).

(** *** Processes *)

Definition timed_out (limit : option Q) (after : Q) : bool :=
  match limit with
  | Some t => negb (Qle_bool after t)
  | None => false
  end.

(** The record of one call: the oracle is asked what the process does on
    the current file system. *)
Definition call (cwd : option text) (argv : list text) (limit : option Q)
    (fs : gmap text text) : event :=
  {| ev_cwd := cwd; ev_argv := argv; ev_timeout := limit;
     ev_files := fs; ev_proc := spawn w cwd argv fs |}.

(** [subprocess.run(argv, cwd=cwd, capture_output=True, text=True,
    timeout=limit)], with [errors='ignore'] when [lenient]: the completed
    process as (returncode, stdout, stderr).  The output is decoded once
    the process has exited in time. *)
Definition run (argv : list text) (cwd : option text) (limit : option Q)
    (lenient : bool) : M (Z * text * text) :=
  λ st,
    let e := call cwd argv limit (files st) in
    let st' := {| files := files_after (ev_proc e); trace := trace st ++ [e] |} in
    match behaves (ev_proc e) with
    | CannotStart msg => (inl (Error msg), st')
    | Exits after rc out err =>
        if timed_out limit after then (inl TimeoutExpired, st')
        else if garbled (ev_proc e) && negb lenient
        then (inl (oops NotDecodable), st')
        else (inr (rc, out, err), st')
    end.

(** *** Configuration *)

(** [Path / name] *)
Definition pjoin (dir name : text) : text := dir ++ str "/" ++ name.

Definition MOONSEC_PATH : text := str "MoonsecDeobfuscator-master".

Definition BUILD_PATH : text :=
  pjoin (pjoin (pjoin MOONSEC_PATH (str "bin")) (str "Release")) (str "net8.0").

Definition DOTNET_CLEAN : list text :=
  [str "dotnet"; str "clean"; str "-c"; str "Release"].

Definition DOTNET_BUILD : list text :=
  [str "dotnet"; str "build"; str "-c"; str "Release"].

(** *** [build_moonsec] *)

Definition build_moonsec : M bool :=
  try_except
    (run DOTNET_CLEAN (Some MOONSEC_PATH) None false ;;;
     result <- run DOTNET_BUILD (Some MOONSEC_PATH) None false ;;
     let '(returncode, _, _) := result in
     if (returncode =? 0)%Z then ret true else ret false)
    (λ _, ret false).

(** *** Responses *)

Record response : Type := {
  status : Z;
  payload : list (text * json)
}.

(** [jsonify({"success": False, "error": msg}), code] *)
Definition failure (code : Z) (msg : text) : response :=
  {| status := code;
     payload := [(str "success", JBool false); (str "error", JStr msg)] |}.

(** *** [deobfuscate] *)

Definition possible_paths : list text :=
  [ pjoin BUILD_PATH (str "MoonsecDeobfuscator.exe");
    pjoin BUILD_PATH (str "MoonsecDeobfuscator");
    pjoin (pjoin (pjoin (pjoin MOONSEC_PATH (str "bin")) (str "Release"))
             (str "net8.0")) (str "MoonsecDeobfuscator.exe");
    pjoin (pjoin (pjoin (pjoin MOONSEC_PATH (str "bin")) (str "Release"))
             (str "net8.0")) (str "MoonsecDeobfuscator") ].

(** The loop over [possible_paths]: the first path that exists. *)
Fixpoint find_exe (paths : list text) : M (option text) :=
  match paths with
  | [] => ret None
  | path :: rest =>
      found <- path_exists path ;;
      if found then ret (Some path) else find_exe rest
  end.

(** The [with NamedTemporaryFile(...)] block: the file is created, then
    [data['content']] is evaluated and written.  The text is stored as it
    is written, as text mode does where the line separator is the line
    feed. *)
Definition write_input (data : json) : M text :=
  let name := tmp_stem w ++ str ".lua" in
  put_file name [] ;;;
  content <- or_raise (oops (NotSubscriptable (type_name data)))
               (py_getitem data (str "content")) ;;
  match content with
  | JStr s =>
      if forallb encodable s then put_file name s ;;; ret name
      else raise (oops NotEncodable)
  | _ => raise (oops (WriteNotStr (type_name content)))
  end.

(** "Check if build is needed": whether the tool is built afterwards. *)
Definition ensure_built : M bool :=
  have_build <- path_exists BUILD_PATH ;;
  if negb have_build then build_moonsec else ret true.

(** "Find the executable": the command line, or [None] when neither an
    executable nor the dll is there. *)
Definition choose_command (command input_path output_path : text)
  : M (option (list text)) :=
  exe_path <- find_exe possible_paths ;;
  match exe_path with
  | None =>
      let dll_path := pjoin BUILD_PATH (str "MoonsecDeobfuscator.dll") in
      have_dll <- path_exists dll_path ;;
      if have_dll
      then ret (Some [str "dotnet"; dll_path; command; str "-i"; input_path;
                      str "-o"; output_path])
      else ret None
  | Some exe =>
      ret (Some [exe; command; str "-i"; input_path; str "-o"; output_path])
  end.

(** The success payload. *)
Definition success (result : text) (disassembly filename : json) : response :=
  {| status := 200;
     payload :=
       [ (str "success", JBool true);
         (str "result", JStr result);
         (str "format",
          JStr (if truthy disassembly then str "disassembly" else str "bytecode"));
         (str "original_filename", filename) ] |}.

(** "Read output file" *)
Definition read_output (data disassembly : json) (output_path : text)
  : M response :=
  have_output <- path_exists output_path ;;
  if have_output then
    output_content <- read_file output_path ;;
    pretty <- or_raise (oops (NoSuchMethod (type_name data)))
                (py_get data (str "pretty") (JBool true)) ;;
    let output_content :=
      if truthy pretty
      then format_output output_content (truthy disassembly)
      else output_content in
    filename <- or_raise (oops (NoSuchMethod (type_name data)))
                  (py_get data (str "filename") (JStr (str "unknown.lua"))) ;;
    ret (success output_content disassembly filename)
  else ret (failure 500 (str "Output file was not created")).

(** "Run deobfuscator" *)
Definition run_tool (data disassembly : json) (cmd : list text)
    (output_path : text) : M response :=
  result <- run cmd None (Some (30 # 1)%Q) true ;;
  let '(returncode, _, stderr) := result in
  if negb (returncode =? 0)%Z then
    let error_msg := if nonempty stderr then strip stderr
                     else str "Unknown error" in
    ret (failure 500 (str "Deobfuscation failed: " ++ error_msg))
  else read_output data disassembly output_path.

(** The body of the inner [try]. *)
Definition process (data : json) (input_path output_path : text) : M response :=
  disassembly <- or_raise (oops (NoSuchMethod (type_name data)))
                   (py_get data (str "disassembly") (JBool false)) ;;
  let command := if truthy disassembly then str "-dis" else str "-dev" in
  built <- ensure_built ;;
  if negb built then ret (failure 500 (str "Failed to build Moonsec tool"))
  else
    cmd <- choose_command command input_path output_path ;;
    match cmd with
    | None =>
        ret (failure 500 (str "Moonsec executable not found. Try building first."))
    | Some cmd => run_tool data disassembly cmd output_path
    end.

(** The inner [try] with its two [except] clauses. *)
Definition attempt (data : json) (input_path output_path : text) : M response :=
  try_except (process data input_path output_path)
    (λ e, match e with
          | TimeoutExpired =>
              ret (failure 500 (str "Process timed out after 30 seconds"))
          | Error msg =>
              ret (failure 500 (str "Processing error: " ++ msg))
          end).

(** The [finally] clause: both deletions sit in one [try], and whatever
    it raises is dropped. *)
Definition cleanup (input_path output_path : text) : M unit :=
  try_except
    (have_input <- path_exists input_path ;;
     (if have_input then unlink input_path else ret ()) ;;;
     have_output <- path_exists output_path ;;
     (if have_output then unlink output_path else ret ()))
    (λ _, ret ()).

(** The inner [try ... except ... finally]. *)
Definition guarded (data : json) (input_path output_path : text) : M response :=
  try_finally (attempt data input_path output_path)
    (cleanup input_path output_path).

(** The body of the outer [try]; [data] is what [request.get_json()]
    returned. *)
Definition handle (data : json) : M response :=
  has_content <- (if negb (truthy data) then ret false
                  else or_raise (oops (NotAContainer (type_name data)))
                         (py_in (str "content") data)) ;;
  if negb has_content then ret (failure 400 (str "No content provided"))
  else
    have_moonsec <- path_exists MOONSEC_PATH ;;
    if negb have_moonsec then
      ret (failure 500 (str "MoonsecDeobfuscator not found at: " ++ MOONSEC_PATH))
    else
      input_path <- write_input data ;;
      let output_path := input_path ++ str ".output" in
      guarded data input_path output_path.

(** [POST /deobfuscate]: the response and the state the request leaves. *)
Definition deobfuscate (data : json) (st : state) : response * state :=
  match handle data st with
  | (inr r, st') => (r, st')
  | (inl e, st') => (failure 500 (str "Server error: " ++ exn_text e), st')
  end.

End Handler.

(** ** Notions used to state and prove the properties *)

(** *** Formatter *)

(** A line made of white space only: [line.strip()] is empty. *)
Definition blank (s : text) : bool := forallb is_space s.

(** The lines the disassembly branch keeps. *)
Definition keep_dis (s : text) : list text :=
  fold_left dis_step (split NL s) [].

(** What the three [replace] calls do to one character. *)
Definition expand_char (c : char) : text :=
  if c =? RBRACE then [NL; RBRACE]
  else if c =? LBRACE then [LBRACE; NL]
  else if c =? SEMI then [SEMI; NL]
  else [c].

Definition expand (s : text) : text := flat_map expand_char s.

(** The lines the bytecode branch keeps of the text with breaks inserted. *)
Definition keep_byte (t : text) : list text :=
  map rstrip (filter (λ line, nonempty (strip line) = true) (split NL t)).

(** A line in which [;] and [{] occur last only and [}] first only. *)
Definition head_ok (l : text) : Prop :=
  match l with
  | [] => True
  | c :: _ => c ≠ RBRACE
  end.

Fixpoint tidy (l : text) : Prop :=
  match l with
  | [] => True
  | c :: r => (r = [] ∨ (c ≠ SEMI ∧ c ≠ LBRACE)) ∧ head_ok r ∧ tidy r
  end.

(** *** Handler *)

(** [data.get('disassembly', False)] on an object with items [d], and the
    tool option chosen from it. *)
Definition flag (d : list (text * json)) : json :=
  default (JBool false) (assoc (str "disassembly") d).

Definition mode (d : list (text * json)) : text :=
  if truthy (flag d) then str "-dis" else str "-dev".

(** The loop over the candidates as a function of the file system. *)
Definition first_existing (fs : gmap text text) (paths : list text)
  : option text :=
  List.find (λ p, bool_decide (is_Some (fs !! p))) paths.

(** "Find the executable" as a function of the file system. *)
Definition command_line (fs : gmap text text) (command inp out : text)
  : option (list text) :=
  match first_existing fs possible_paths with
  | Some exe => Some [exe; command; str "-i"; inp; str "-o"; out]
  | None =>
      let dll_path := pjoin BUILD_PATH (str "MoonsecDeobfuscator.dll") in
      if bool_decide (is_Some (fs !! dll_path))
      then Some [str "dotnet"; dll_path; command; str "-i"; inp; str "-o"; out]
      else None
  end.

(** The two [except] clauses of the inner [try]. *)
Definition caught (r : exn + response) : response :=
  match r with
  | inr resp => resp
  | inl TimeoutExpired => failure 500 (str "Process timed out after 30 seconds")
  | inl (Error msg) => failure 500 (str "Processing error: " ++ msg)
  end.

(** The validation of line 90: [Some true] lets the request through,
    [Some false] rejects it, [None] is the [TypeError] of [in]. *)
Definition validated (data : json) : option bool :=
  if negb (truthy data) then Some false else py_in (str "content") data.

(** What [f.write(data['content'])] writes, or why it raises. *)
Definition content_of (data : json) : fault + text :=
  match py_getitem data (str "content") with
  | None => inl (NotSubscriptable (type_name data))
  | Some (JStr s) => if forallb encodable s then inr s else inl NotEncodable
  | Some v => inl (WriteNotStr (type_name v))
  end.

(** The tool is the one process started without a working directory; the
    two build steps run inside [MOONSEC_PATH]. *)
Definition tool_run (e : event) : Prop := ev_cwd e = None.

Section Summary.

Variable w : world.

Definition clean_step (fs : gmap text text) : event :=
  call w (Some MOONSEC_PATH) DOTNET_CLEAN None fs.

Definition build_step (fs : gmap text text) : event :=
  call w (Some MOONSEC_PATH) DOTNET_BUILD None fs.

Definition tool_step (cmd : list text) (fs : gmap text text) : event :=
  call w None cmd (Some (30 # 1)%Q) fs.

(** What [subprocess.run] hands back for a step of the build (no time
    limit, strict decoding): the exit code, or nothing when it raises
    because the process cannot be started or its output does not decode. *)
Definition exit_code (e : event) : option Z :=
  match behaves (ev_proc e) with
  | CannotStart _ => None
  | Exits _ rc _ _ => if garbled (ev_proc e) then None else Some rc
  end.

(** The runs of the build stage from the files [fs]: the processes it
    spawned, the files it leaves, and whether the tool counts as built. *)
Inductive build_stage (fs : gmap text text)
  : list event → gmap text text → bool → Prop :=
| build_skipped :
    is_Some (fs !! BUILD_PATH) → build_stage fs [] fs true
| build_clean_broke :
    fs !! BUILD_PATH = None →
    exit_code (clean_step fs) = None →
    build_stage fs [clean_step fs] (files_after (ev_proc (clean_step fs))) false
| build_ran rc :
    fs !! BUILD_PATH = None →
    exit_code (clean_step fs) = Some rc →
    let b := build_step (files_after (ev_proc (clean_step fs))) in
    build_stage fs [clean_step fs; b] (files_after (ev_proc b))
      (bool_decide (exit_code b = Some 0%Z)).

(** What the inner [try] answers once the tool has been spawned and
    behaved as [p] says. *)
Definition answer (d : list (text * json)) (out : text) (p : proc) : response :=
  match behaves p with
  | CannotStart msg => failure 500 (str "Processing error: " ++ msg)
  | Exits after rc _ err =>
      if timed_out (Some (30 # 1)%Q) after
      then failure 500 (str "Process timed out after 30 seconds")
      else if negb (rc =? 0)%Z
      then failure 500 (str "Deobfuscation failed: "
                        ++ (if nonempty err then strip err else str "Unknown error"))
      else match files_after p !! out with
           | None => failure 500 (str "Output file was not created")
           | Some raw =>
               match open_refused w out with
               | Some msg => failure 500 (str "Processing error: " ++ msg)
               | None =>
                   success
                     (if truthy (default (JBool true) (assoc (str "pretty") d))
                      then format_output (translate_newlines raw) (truthy (flag d))
                      else translate_newlines raw)
                     (flag d)
                     (default (JStr (str "unknown.lua"))
                        (assoc (str "filename") d))
               end
           end
  end.

(** The inner [try] after the build stage: the response, the tool run if
    any, and the files left to the [finally] clause. *)
Definition verdict (d : list (text * json)) (inp out : text)
    (fs1 : gmap text text) (ok : bool)
  : response * list event * gmap text text :=
  if ok then
    match command_line fs1 (mode d) inp out with
    | None =>
        (failure 500 (str "Moonsec executable not found. Try building first."),
         [], fs1)
    | Some cmd =>
        let e := tool_step cmd fs1 in
        (answer d out (ev_proc e), [e], files_after (ev_proc e))
    end
  else (failure 500 (str "Failed to build Moonsec tool"), [], fs1).

(** One guarded deletion of the [finally] clause: [None] when [os.unlink]
    raises. *)
Definition remove (p : text) (fs : gmap text text) : option (gmap text text) :=
  match fs !! p with
  | None => Some fs
  | Some _ =>
      match unlink_refused w p with
      | Some _ => None
      | None => Some (delete p fs)
      end
  end.

(** The files the [finally] clause leaves. *)
Definition sweep (inp out : text) (fs : gmap text text) : gmap text text :=
  match remove inp fs with
  | None => fs
  | Some fs1 => default fs1 (remove out fs1)
  end.

(** [input_path] and [output_path] *)
Definition scratch : text := tmp_stem w ++ str ".lua".

Definition scratch_out : text := scratch ++ str ".output".

(** The requests answered before the inner [try] is entered, with the
    files they leave. *)
Inductive early (data : json) (fs : gmap text text)
  : response → gmap text text → Prop :=
| early_type_error :
    validated data = None →
    early data fs
      (failure 500
         (str "Server error: " ++ wording w (NotAContainer (type_name data))))
      fs
| early_rejected :
    validated data = Some false →
    early data fs (failure 400 (str "No content provided")) fs
| early_missing :
    validated data = Some true → fs !! MOONSEC_PATH = None →
    early data fs
      (failure 500 (str "MoonsecDeobfuscator not found at: " ++ MOONSEC_PATH)) fs
| early_unwritten f :
    validated data = Some true → is_Some (fs !! MOONSEC_PATH) →
    content_of data = inl f →
    early data fs
      (failure 500 (str "Server error: " ++ wording w f))
      (<[scratch := []]> fs).

End Summary.

(** *** Sample machines and requests *)

(** A wording of the errors, after CPython's. *)
Definition cpython_wording (f : fault) : text :=
  match f with
  | NotAContainer ty => str "argument of type '" ++ ty ++ str "' is not iterable"
  | NotSubscriptable ty => ty ++ str " indices must be integers or slices, not str"
  | NoSuchMethod ty => str "'" ++ ty ++ str "' object has no attribute 'get'"
  | WriteNotStr ty => str "write() argument must be str, not " ++ ty
  | NotEncodable => str "'utf-8' codec can't encode character: surrogates not allowed"
  | NotDecodable => str "'utf-8' codec can't decode byte: invalid start byte"
  | NoSuchFile => str "[Errno 2] No such file or directory"
  | Expired => str "Command timed out after 30 seconds"
  end.

(** A machine on which [dotnet] builds the tool in five seconds and the
    tool behaves as [tool] says. *)
Definition machine (tool : list text → gmap text text → proc) : world :=
  {| spawn := λ cwd argv fs,
       match cwd with
       | Some _ =>
           {| behaves := Exits (5 # 1) 0 [] [];
              garbled := false;
              files_after :=
                if bool_decide (argv = DOTNET_BUILD)
                then <[pjoin BUILD_PATH (str "MoonsecDeobfuscator") := []]>
                       (<[BUILD_PATH := []]> fs)
                else fs |}
       | None => tool argv fs
       end;
     tmp_stem := str "/tmp/tmpk3v9x2ab";
     unlink_refused := λ _, None;
     open_refused := λ _, None;
     wording := cpython_wording |}.

(** A tool that takes [after] seconds, writes [output] to the path given
    last on its command line, and exits with [rc] and [err] on its error
    stream. *)
Definition writes (after : Q) (output : option text) (rc : Z) (err : text)
    (argv : list text) (fs : gmap text text) : proc :=
  {| behaves := Exits after rc [] err;
     garbled := false;
     files_after :=
       match output with
       | Some o => <[default [] (last argv) := o]> fs
       | None => fs
       end |}.

(** Only the sources are there; the build directory holds nothing; the
    tool is built. *)
Definition fs_sources : gmap text text := {[ MOONSEC_PATH := [] ]}.

Definition fs_empty_build : gmap text text := <[BUILD_PATH := []]> fs_sources.

Definition fs_built : gmap text text :=
  <[pjoin BUILD_PATH (str "MoonsecDeobfuscator") := []]> fs_empty_build.

(** The body [{"content": content}] *)
Definition post (content : text) : json := JDict [(str "content", JStr content)].

Definition w_fine : world := machine (writes (1 # 1) (Some (str "x=1;y=2")) 0 []).

Definition w_blank : world := machine (writes (1 # 1) (Some [NL]) 0 []).

Definition w_slow : world := machine (writes (31 # 1) None 0 []).

Definition w_boom : world := machine (writes (1 # 1) None 1 (str "boom" ++ [NL])).

(** The tool run of the request [{"content": content}] on [fs_built]. *)
Definition sample_run (w : world) (content : text) : event :=
  tool_step w
    [pjoin BUILD_PATH (str "MoonsecDeobfuscator"); str "-dev"; str "-i";
     scratch w; str "-o"; scratch_out w]
    (<[scratch w := content]> fs_built).

(** The tool run of the request [{"content": content}] on [fs_sources],
    after the build. *)
Definition sample_run_after_build (w : world) (content : text) : event :=
  tool_step w
    [pjoin BUILD_PATH (str "MoonsecDeobfuscator"); str "-dev"; str "-i";
     scratch w; str "-o"; scratch_out w]
    (files_after
       (ev_proc (build_step w (<[scratch w := content]> fs_sources)))).

(** ** The rest of server.py *)

Section Health.

Variable w : world.

Definition DOTNET_VERSION : list text := [str "dotnet"; str "--version"].

(** [check_dotnet]: the bare [except:] turns every failure into False. *)
Definition check_dotnet : M bool :=
  try_except
    (result <- run w DOTNET_VERSION None (Some (5 # 1)%Q) false ;;
     let '(returncode, _, _) := result in
     ret (returncode =? 0)%Z)
    (λ _, ret false).

(** [os.path.getmtime] is not part of the file system model: the
    modification times are a parameter. *)
Variable getmtime : text → spec_float.

(** [GET /health] *)
Definition health : M response :=
  dotnet_available <- check_dotnet ;;
  moonsec_exists <- path_exists MOONSEC_PATH ;;
  ret {| status := 200;
         payload :=
           [ (str "status", JStr (str "ok"));
             (str "dotnet", JBool dotnet_available);
             (str "moonsec_path", JStr MOONSEC_PATH);
             (str "moonsec_exists", JBool moonsec_exists);
             (str "timestamp",
              if moonsec_exists then JFloat (getmtime MOONSEC_PATH)
              else JInt 0) ] |}.

End Health.

(** *** More notions for the properties *)

(** The characters of a text that are not white space, in order. *)
Definition visible (s : list char) : text := filter (λ c, is_space c = false) s.

(** The same machine with another behaviour of [os.unlink]. *)
Definition with_unlink (w : world) (refused : text → option text) : world :=
  {| spawn := spawn w; tmp_stem := tmp_stem w;
     unlink_refused := refused; open_refused := open_refused w;
     wording := wording w |}.

(** The files a request leaves apart from its own scratch files: those the
    last process it ran left, or those it found when it ran none. *)
Definition files_left (fs : gmap text text) (log : list event)
  : gmap text text :=
  match last log with
  | Some e => files_after (ev_proc e)
  | None => fs
  end.

(** The probe of [check_dotnet] on the files [fs]. *)
Definition version_step (w : world) (fs : gmap text text) : event :=
  call w None DOTNET_VERSION (Some (5 # 1)%Q) fs.

(** More sample machines: a tool that exits with 0 and writes nothing; a
    tool that cannot be started; a machine without [dotnet] and without
    the tool. *)
Definition w_silent : world := machine (writes (1 # 1) None 0 []).

Definition w_broken : world :=
  machine (λ _ fs, {| behaves := CannotStart (str "[Errno 13] Permission denied");
                      garbled := false;
                      files_after := fs |}).

Definition w_bare : world :=
  {| spawn := λ _ _ fs,
       {| behaves := CannotStart (str "[Errno 2] No such file or directory: 'dotnet'");
          garbled := false;
          files_after := fs |};
     tmp_stem := str "/tmp/tmpk3v9x2ab";
     unlink_refused := λ _, None;
     open_refused := λ _, None;
     wording := cpython_wording |}.

(** A tool that writes its output with the line endings of Windows and of
    the old Mac; a machine on which [dotnet] exits with 0 and prints bytes
    that do not decode; a machine on which the output path cannot be
    opened. *)
Definition w_crlf : world :=
  machine (writes (1 # 1)
             (Some (str "a" ++ [CR; NL] ++ str "b" ++ [CR] ++ str "c")) 0 []).

Definition w_garbled : world :=
  {| spawn := λ _ _ fs,
       {| behaves := Exits (1 # 1) 0 [] []; garbled := true; files_after := fs |};
     tmp_stem := str "/tmp/tmpk3v9x2ab";
     unlink_refused := λ _, None;
     open_refused := λ _, None;
     wording := cpython_wording |}.

Definition w_locked : world :=
  {| spawn := spawn w_fine; tmp_stem := tmp_stem w_fine;
     unlink_refused := λ _, None;
     open_refused := λ _, Some (str "[Errno 13] Permission denied");
     wording := cpython_wording |}.

(** * Properties *)

(** ** The formatter on samples *)

Example format_dis_sample :
  format_output (str "a  " ++ [NL; NL] ++ str " b " ++ [NL]) true
  = str "a" ++ [NL] ++ str " b".
Proof. reflexivity. Qed.

Example format_byte_sample :
  format_output (str "f(){a;b}") false
  = str "f(){" ++ [NL] ++ str "a;" ++ [NL] ++ str "b" ++ [NL] ++ str "}".
Proof. reflexivity. Qed.


(** ** Facts about the string built-ins *)

Section StringFacts.

Implicit Types (s k l : text) (c sep : char) (K : list text).

Lemma split_not_nil sep s : split sep s ≠ [].
Proof.
  destruct s as [|c s]; simpl; [done|].
  destruct (c =? sep); [done|]. by destruct (split sep s).
Qed.

Lemma split_cons_other sep c s :
  c ≠ sep →
  ∃ l ls, split sep s = l :: ls ∧ split sep (c :: s) = (c :: l) :: ls.
Proof.
  intros Hc. simpl. apply N.eqb_neq in Hc. rewrite Hc.
  destruct (split sep s) as [|l ls] eqn:E.
  - by apply split_not_nil in E.
  - by exists l, ls.
Qed.

Lemma split_app_sep sep s1 s2 :
  split sep (s1 ++ sep :: s2) = split sep s1 ++ split sep s2.
Proof.
  induction s1 as [|c s1 IH]; simpl.
  - by rewrite N.eqb_refl.
  - destruct (c =? sep); [by rewrite IH|].
    rewrite IH. destruct (split sep s1) as [|l ls] eqn:E; [|done].
    by apply split_not_nil in E.
Qed.

Lemma split_without_sep sep k : sep ∉ k → split sep k = [k].
Proof.
  induction k as [|c k IH]; [done|].
  intros [Hc Hk]%not_elem_of_cons. simpl.
  assert ((c =? sep) = false) as -> by (apply N.eqb_neq; congruence).
  by rewrite (IH Hk).
Qed.

Lemma split_lines_no_sep sep s : Forall (λ l, sep ∉ l) (split sep s).
Proof.
  induction s as [|c s IH]; simpl.
  - repeat constructor. apply not_elem_of_nil.
  - destruct (c =? sep) eqn:E.
    + constructor; [apply not_elem_of_nil | done].
    + apply N.eqb_neq in E. destruct (split sep s) as [|l ls].
      * repeat constructor. apply not_elem_of_cons.
        split; [congruence | apply not_elem_of_nil].
      * inversion IH as [|? ? Hl Hls]; subst. constructor; [|done].
        apply not_elem_of_cons. split; [congruence | done].
Qed.

Lemma rstrip_cons c s :
  rstrip (c :: s)
  = match rstrip s with
    | [] => if is_space c then [] else [c]
    | r => c :: r
    end.
Proof. done. Qed.

Lemma rstrip_idemp s : rstrip (rstrip s) = rstrip s.
Proof.
  induction s as [|c s IH]; [done|].
  rewrite rstrip_cons. destruct (rstrip s) as [|x r] eqn:E.
  - destruct (is_space c) eqn:Hc; [done|]. simpl. by rewrite Hc.
  - rewrite rstrip_cons, IH. done.
Qed.

(** [rstrip] only removes a suffix. *)
Lemma rstrip_prefix s : ∃ w, s = rstrip s ++ w.
Proof.
  induction s as [|c s [w IH]]; [by exists []|].
  rewrite rstrip_cons. destruct (rstrip s) as [|x r].
  - destruct (is_space c).
    + by exists (c :: s).
    + exists w. simpl in *. by rewrite <- IH.
  - exists w. simpl in *. by rewrite <- IH.
Qed.

Lemma rstrip_no_sep sep s : sep ∉ s → sep ∉ rstrip s.
Proof.
  destruct (rstrip_prefix s) as [w Hw]. intros Hs Hin.
  apply Hs. rewrite Hw. apply elem_of_app. by left.
Qed.

Lemma nonempty_rstrip s : nonempty (rstrip s) = negb (blank s).
Proof.
  induction s as [|c s IH]; [done|].
  rewrite rstrip_cons. simpl. destruct (rstrip s); simpl in *.
  - destruct (is_space c); simpl; [by rewrite <- IH | done].
  - symmetry in IH. apply negb_true_iff in IH. rewrite IH.
    by rewrite andb_false_r.
Qed.

Lemma blank_lstrip s : blank (lstrip s) = blank s.
Proof.
  induction s as [|c s IH]; [done|]. simpl.
  destruct (is_space c) eqn:Hc; simpl; [done|]. by rewrite Hc.
Qed.

Lemma nonempty_strip s : nonempty (strip s) = negb (blank s).
Proof. unfold strip. by rewrite nonempty_rstrip, blank_lstrip. Qed.

Lemma blank_rstrip s : blank (rstrip s) = blank s.
Proof.
  assert (negb (blank (rstrip s)) = negb (blank s)) as H.
  { rewrite <- !nonempty_rstrip. by rewrite rstrip_idemp. }
  by destruct (blank (rstrip s)), (blank s).
Qed.

Lemma join_cons_cons (glue : text) k k' K :
  join glue (k :: k' :: K) = k ++ glue ++ join glue (k' :: K).
Proof. done. Qed.

(** Re-reading a joined list of lines: if a line reader [keep] and a
    rewriting [h] both respect line breaks, and every line of [K] is read
    back as itself, then [K] as a whole is read back as itself. *)
Lemma keep_join (h : text → text) (keep : text → list text) K :
  (∀ a b, h (a ++ NL :: b) = h a ++ NL :: h b) →
  (∀ a b, keep (a ++ NL :: b) = keep a ++ keep b) →
  h [] = [] → keep [] = [] →
  Forall (λ k, keep (h k) = [k]) K →
  keep (h (join [NL] K)) = K.
Proof.
  intros Hh Hkeep Hh0 Hk0 HK. induction HK as [|k K Hk HK IH].
  - simpl. by rewrite Hh0.
  - destruct K as [|k' K]; [done|].
    rewrite join_cons_cons. cbn [app].
    rewrite Hh, Hkeep, Hk, IH. done.
Qed.

Lemma replace_char c new s :
  replace [c] new s = flat_map (λ x, if x =? c then new else [x]) s.
Proof.
  unfold replace. induction s as [|x s IH]; [done|].
  simpl. rewrite andb_true_r, N.eqb_sym.
  destruct (x =? c); by rewrite IH.
Qed.

End StringFacts.

(** ** The disassembly branch *)

Section Disassembly.

Implicit Types (s k l : text) (K : list text).

Lemma fold_dis_step ls acc :
  fold_left dis_step ls acc
  = acc ++ filter (λ l, nonempty l = true) (map rstrip ls).
Proof.
  revert acc. induction ls as [|l ls IH]; intros acc; simpl.
  - by rewrite app_nil_r.
  - rewrite IH. unfold dis_step. destruct (nonempty (rstrip l)) eqn:E.
    + rewrite filter_cons_True by done. by rewrite <- app_assoc.
    + rewrite filter_cons_False by congruence. done.
Qed.

Lemma keep_dis_app a b : keep_dis (a ++ NL :: b) = keep_dis a ++ keep_dis b.
Proof.
  unfold keep_dis. rewrite !fold_dis_step, split_app_sep. simpl.
  by rewrite List.map_app, filter_app.
Qed.

Lemma keep_dis_line k :
  NL ∉ k → rstrip k = k → nonempty k = true → keep_dis k = [k].
Proof.
  intros Hnl Hr Hne. unfold keep_dis.
  rewrite fold_dis_step, split_without_sep by done. simpl.
  rewrite Hr. by rewrite filter_cons_True.
Qed.

Lemma keep_dis_lines s :
  Forall (λ k, (NL ∉ k) ∧ rstrip k = k ∧ nonempty k = true) (keep_dis s).
Proof.
  unfold keep_dis. rewrite fold_dis_step. simpl.
  pose proof (split_lines_no_sep NL s) as H.
  induction H as [|l ls Hl Hls IH]; simpl; [constructor|].
  destruct (nonempty (rstrip l)) eqn:E.
  - rewrite filter_cons_True by done. constructor; [|done].
    split_and!; [by apply rstrip_no_sep | apply rstrip_idemp | done].
  - by rewrite filter_cons_False by congruence.
Qed.

Lemma format_output_dis_eq s :
  format_output s true = if nonempty s then join [NL] (keep_dis s) else s.
Proof. unfold format_output, keep_dis. by destruct (nonempty s). Qed.

End Disassembly.

(** C7. In disassembly mode the formatter is idempotent: formatting an
    already formatted text gives it back unchanged, for every input
    string. *)
Theorem format_output_disassembly_idempotent (content : text) :
  format_output (format_output content true) true = format_output content true.
Proof.
  rewrite (format_output_dis_eq content).
  destruct (nonempty content) eqn:Hc.
  - rewrite format_output_dis_eq.
    destruct (nonempty (join [NL] (keep_dis content))); [|done].
    f_equal. apply (keep_join (λ t, t) keep_dis); try done.
    + apply keep_dis_app.
    + eapply Forall_impl; [apply keep_dis_lines|].
      intros k (? & ? & ?). by apply keep_dis_line.
  - rewrite format_output_dis_eq. by rewrite Hc.
Qed.

(** ** The bytecode branch *)

Section Bytecode.

Implicit Types (s k l t : text) (c : char) (K pad : list text).

Lemma flat_map_twice (f g : char → text) s :
  flat_map g (flat_map f s) = flat_map (λ x, flat_map g (f x)) s.
Proof.
  induction s as [|c s IH]; [done|].
  cbn [flat_map]. by rewrite flat_map_app, IH.
Qed.

Lemma replace_thrice s :
  replace [RBRACE] [NL; RBRACE]
    (replace [LBRACE] [LBRACE; NL] (replace [SEMI] [SEMI; NL] s))
  = expand s.
Proof.
  rewrite !replace_char, !flat_map_twice. unfold expand.
  apply flat_map_ext. intros c. unfold expand_char.
  destruct (c =? SEMI) eqn:E1.
  { apply N.eqb_eq in E1. by subst c. }
  cbn [flat_map]. rewrite app_nil_r.
  destruct (c =? LBRACE) eqn:E2.
  { apply N.eqb_eq in E2. by subst c. }
  cbn [flat_map]. rewrite app_nil_r.
  by destruct (c =? RBRACE).
Qed.

Lemma format_output_byte_eq s :
  format_output s false
  = if nonempty s then join [NL] (keep_byte (expand s)) else s.
Proof.
  unfold format_output. destruct (nonempty s); [|done].
  simpl. by rewrite replace_thrice.
Qed.

Lemma expand_app a b : expand (a ++ NL :: b) = expand a ++ NL :: expand b.
Proof. unfold expand. by rewrite flat_map_app. Qed.

Lemma keep_byte_app a b : keep_byte (a ++ NL :: b) = keep_byte a ++ keep_byte b.
Proof.
  unfold keep_byte. by rewrite split_app_sep, filter_app, List.map_app.
Qed.

Lemma tidy_app_l a b : tidy (a ++ b) → tidy a.
Proof.
  induction a as [|c a IH]; [done|].
  simpl. intros (Hc & Hh & Ht). split_and!.
  - destruct Hc as [Hc|Hc]; [|by right].
    left. by destruct a.
  - by destruct a.
  - by apply IH.
Qed.

Lemma rstrip_tidy l : tidy l → tidy (rstrip l).
Proof.
  destruct (rstrip_prefix l) as [w Hw]. intros H.
  rewrite Hw in H. by apply tidy_app_l in H.
Qed.

(** After the three replacements every line is tidy, and the first line
    does not start with a closing brace. *)
Lemma expand_lines_tidy s :
  match split NL (expand s) with
  | [] => False
  | l :: ls => head_ok l ∧ tidy l ∧ Forall tidy ls
  end.
Proof.
  induction s as [|c s IH]; [by simpl|].
  change (expand (c :: s)) with (expand_char c ++ expand s).
  destruct (split NL (expand s)) as [|l ls] eqn:E; [done|].
  destruct IH as (Hh & Hl & Hls). unfold expand_char.
  destruct (c =? RBRACE) eqn:E1.
  { simpl. rewrite E. simpl. split_and!; try done.
    constructor; [|done]. simpl. split_and!; try done. by right. }
  destruct (c =? LBRACE) eqn:E2.
  { simpl. rewrite E. simpl. split_and!; try done.
    - by left.
    - by constructor. }
  destruct (c =? SEMI) eqn:E3.
  { simpl. rewrite E. simpl. split_and!; try done.
    - by left.
    - by constructor. }
  apply N.eqb_neq in E1, E2, E3. simpl.
  destruct (c =? NL) eqn:E4; rewrite E; simpl.
  - split_and!; try done. by constructor.
  - split_and!; try done. by right.
Qed.

Lemma expand_lines s :
  Forall (λ l, (NL ∉ l) ∧ tidy l) (split NL (expand s)).
Proof.
  pose proof (expand_lines_tidy s) as H.
  pose proof (split_lines_no_sep NL (expand s)) as Hn.
  destruct (split NL (expand s)) as [|l ls]; [done|].
  destruct H as (_ & Hl & Hls).
  inversion Hn as [|? ? Hnl Hnls]; subst. constructor; [done|].
  clear Hn Hnl Hl. induction Hls as [|x xs Hx Hxs IH]; [constructor|].
  inversion Hnls; subst. constructor; [done|]. by apply IH.
Qed.

(** A tidy line that does not start with [}] is re-read as itself,
    followed at most by empty lines. *)
Lemma reread_line k :
  NL ∉ k → tidy k → head_ok k →
  ∃ pad, split NL (expand k) = k :: pad ∧ Forall (λ l, l = []) pad.
Proof.
  induction k as [|c r IH].
  { intros _ _ _. by exists []. }
  intros [Hc Hr]%not_elem_of_cons (Hlast & Hh & Ht) Hhead.
  destruct (IH Hr Ht Hh) as (pad & Hsplit & Hpad).
  simpl in Hhead.
  change (expand (c :: r)) with (expand_char c ++ expand r).
  assert ((c =? NL) = false) as Hcnl by (apply N.eqb_neq; congruence).
  unfold expand_char.
  assert ((c =? RBRACE) = false) as -> by by apply N.eqb_neq.
  destruct Hlast as [->|[Hs Hl]].
  - change (expand []) with (@nil char). rewrite app_nil_r.
    destruct (c =? LBRACE) eqn:E2.
    { apply N.eqb_eq in E2. subst c. exists [[]]. split; [done|].
      by constructor. }
    destruct (c =? SEMI) eqn:E3.
    { apply N.eqb_eq in E3. subst c. exists [[]]. split; [done|].
      by constructor. }
    exists []. split; [|done]. simpl. by rewrite Hcnl.
  - assert ((c =? LBRACE) = false) as -> by by apply N.eqb_neq.
    assert ((c =? SEMI) = false) as -> by by apply N.eqb_neq.
    exists pad. split; [|done]. simpl. by rewrite Hcnl, Hsplit.
Qed.

Lemma reread_any_line k :
  NL ∉ k → tidy k →
  ∃ pre pad, split NL (expand k) = pre ++ k :: pad
             ∧ Forall (λ l, l = []) pre ∧ Forall (λ l, l = []) pad.
Proof.
  intros Hnl Ht. destruct k as [|c r].
  { exists [], []. by split. }
  destruct (decide (c = RBRACE)) as [->|Hc].
  - apply not_elem_of_cons in Hnl as [_ Hr].
    destruct Ht as (_ & Hh & Ht).
    destruct (reread_line r Hr Ht Hh) as (pad & Hsplit & Hpad).
    exists [[]], pad. split_and!; [|by constructor|done].
    change (expand (RBRACE :: r)) with (NL :: RBRACE :: expand r).
    simpl. by rewrite Hsplit.
  - destruct (reread_line (c :: r) Hnl Ht Hc) as (pad & Hsplit & Hpad).
    by exists [], pad.
Qed.

Lemma filter_empty_lines pad :
  Forall (λ l, l = []) pad →
  filter (λ line, nonempty (strip line) = true) pad = [].
Proof.
  induction 1 as [|l pad -> _ IH]; [done|].
  by rewrite filter_cons_False.
Qed.

Lemma keep_byte_line k :
  NL ∉ k → tidy k → rstrip k = k → blank k = false →
  keep_byte (expand k) = [k].
Proof.
  intros Hnl Ht Hr Hb. unfold keep_byte.
  destruct (reread_any_line k Hnl Ht) as (pre & pad & -> & Hpre & Hpad).
  rewrite filter_app, filter_cons_True.
  - rewrite !filter_empty_lines by done. simpl. by rewrite Hr.
  - by rewrite nonempty_strip, Hb.
Qed.

Lemma keep_byte_lines s :
  Forall (λ k, (NL ∉ k) ∧ tidy k ∧ rstrip k = k ∧ blank k = false)
         (keep_byte (expand s)).
Proof.
  unfold keep_byte. pose proof (expand_lines s) as H.
  induction H as [|l ls [Hnl Ht] _ IH]; [constructor|].
  destruct (nonempty (strip l)) eqn:E.
  - rewrite filter_cons_True by done. simpl. constructor; [|done].
    split_and!.
    + by apply rstrip_no_sep.
    + by apply rstrip_tidy.
    + apply rstrip_idemp.
    + rewrite blank_rstrip. rewrite nonempty_strip in E.
      by destruct (blank l).
  - by rewrite filter_cons_False by congruence.
Qed.

End Bytecode.

(** C8. In bytecode mode the formatter converges after one pass: applied
    to its own output it changes nothing, for every input string. *)
Theorem format_output_bytecode_converges (content : text) :
  format_output (format_output content false) false
  = format_output content false.
Proof.
  rewrite (format_output_byte_eq content).
  destruct (nonempty content) eqn:Hc.
  - rewrite format_output_byte_eq.
    destruct (nonempty (join [NL] (keep_byte (expand content)))); [|done].
    f_equal. apply (keep_join expand keep_byte); try done.
    + apply expand_app.
    + apply keep_byte_app.
    + eapply Forall_impl; [apply keep_byte_lines|].
      intros k (? & ? & ? & ?). by apply keep_byte_line.
  - rewrite format_output_byte_eq. by rewrite Hc.
Qed.

(** The pass really inserts breaks: the first application is not the
    identity, a break goes after [{] and [;] and before [}]. *)
Example format_output_bytecode_inserts :
  format_output (str "a{b;c}d") false
  = str "a{" ++ [NL] ++ str "b;" ++ [NL] ++ str "c" ++ [NL] ++ str "}d".
Proof. reflexivity. Qed.

(** C9. On [print('x;y')] in bytecode mode the formatter breaks the line
    after the semicolon although it is inside a string literal. *)
Theorem format_output_breaks_inside_literal :
  format_output (str "print('x;y')") false
  = str "print('x;" ++ [NL] ++ str "y')".
Proof. reflexivity. Qed.

(** ** The handler, stage by stage *)

Section Stages.

Context (w : world).
Implicit Types (st : state) (fs : gmap text text) (d : list (text * json)).

Lemma find_exe_eq paths st :
  find_exe paths st = (inr (first_existing (files st) paths), st).
Proof.
  induction paths as [|p paths IH]; [done|].
  cbn [find_exe first_existing List.find]. unfold bind, path_exists.
  destruct (bool_decide (is_Some (files st !! p))); [done | apply IH].
Qed.

Lemma choose_command_eq command inp out st :
  choose_command command inp out st
  = (inr (command_line (files st) command inp out), st).
Proof.
  unfold choose_command, command_line, bind. rewrite find_exe_eq.
  destruct (first_existing (files st) possible_paths); [done|].
  unfold path_exists. by destruct (bool_decide _).
Qed.

Lemma ensure_built_stage st :
  ∃ log fs' ok,
    ensure_built w st = (inr ok, {| files := fs'; trace := trace st ++ log |})
    ∧ build_stage w (files st) log fs' ok.
Proof.
  unfold ensure_built, bind, path_exists.
  destruct (bool_decide (is_Some (files st !! BUILD_PATH))) eqn:E.
  - apply bool_decide_eq_true in E. exists [], (files st), true.
    split; [|by constructor]. cbn. rewrite app_nil_r. by destruct st.
  - apply bool_decide_eq_false in E.
    assert (files st !! BUILD_PATH = None) as Hno.
    { destruct (files st !! BUILD_PATH) eqn:?; [|done]. destruct E; eauto. }
    cbn [negb]. unfold build_moonsec, try_except, bind, run, ret.
    cbn [files trace timed_out negb]. rewrite ?andb_true_r.
    fold (clean_step w (files st)). set (c := clean_step w (files st)).
    destruct (exit_code c) as [rc|] eqn:Ec.
    + pose proof Ec as Hc. unfold exit_code in Hc.
      destruct (behaves (ev_proc c)) as [msg|after rc0 out err]; [done|].
      destruct (garbled (ev_proc c)); [done|].
      fold (build_step w (files_after (ev_proc c))).
      set (b := build_step w (files_after (ev_proc c))).
      exists [c; b], (files_after (ev_proc b)),
        (bool_decide (exit_code b = Some 0%Z)).
      split; [|by apply (build_ran w (files st) rc)].
      cbn [files trace]. rewrite <- ?app_assoc. cbn [app].
      rewrite ?andb_true_r.
      fold (build_step w (files_after (ev_proc c))). fold b.
      unfold exit_code.
      destruct (behaves (ev_proc b)) as [msg|after' rc' out' err']; [done|].
      destruct (garbled (ev_proc b)); [done|].
      destruct (rc' =? 0)%Z eqn:Hrc.
      * apply Z.eqb_eq in Hrc as ->. by rewrite bool_decide_eq_true_2.
      * apply Z.eqb_neq in Hrc. rewrite bool_decide_eq_false_2; [done|].
        congruence.
    + exists [c], (files_after (ev_proc c)), false.
      split; [|by apply build_clean_broke].
      unfold exit_code in Ec.
      destruct (behaves (ev_proc c)) as [msg|after rc0 out err]; [done|].
      by destruct (garbled (ev_proc c)).
Qed.

Lemma attempt_caught data inp out st :
  attempt w data inp out st
  = (inr (caught (process w data inp out st).1), (process w data inp out st).2).
Proof.
  unfold attempt, try_except.
  destruct (process w data inp out st) as [[[]|] ?]; done.
Qed.

Lemma run_tool_answer d cmd out st :
  let e := tool_step w cmd (files st) in
  (caught (run_tool w (JDict d) (flag d) cmd out st).1
   = answer w d out (ev_proc e))
  ∧ (run_tool w (JDict d) (flag d) cmd out st).2
    = {| files := files_after (ev_proc e); trace := trace st ++ [e] |}.
Proof.
  intros e. unfold run_tool, bind, run, answer. cbn [files trace negb].
  rewrite andb_false_r.
  fold (tool_step w cmd (files st)). fold e.
  destruct (behaves (ev_proc e)) as [msg|after rc so se]; [done|].
  destruct (timed_out (Some (30 # 1)%Q) after); [done|].
  destruct (negb (rc =? 0)%Z); [done|].
  unfold read_output, bind, path_exists, read_file. cbn [files trace].
  destruct (files_after (ev_proc e) !! out) as [raw|] eqn:E.
  - rewrite bool_decide_eq_true_2 by eauto. cbn [files trace]. rewrite E.
    by destruct (open_refused w out).
  - rewrite bool_decide_eq_false_2; [done|]. by intros [? ?].
Qed.

(** Every run of the inner [try]: the build stage, then either a failure
    before the tool is spawned or the answer to the tool's run. *)
Lemma attempt_paths d inp out st :
  ∃ log fs1 ok,
    build_stage w (files st) log fs1 ok
    ∧ attempt w (JDict d) inp out st
      = (inr (verdict w d inp out fs1 ok).1.1,
         {| files := (verdict w d inp out fs1 ok).2;
            trace := trace st ++ log ++ (verdict w d inp out fs1 ok).1.2 |}).
Proof.
  destruct (ensure_built_stage st) as (log & fs1 & ok & Hrun & Hstage).
  exists log, fs1, ok. split; [done|].
  rewrite attempt_caught. unfold process, bind, verdict.
  cbn [py_get or_raise ret]. fold (flag d). rewrite Hrun.
  destruct ok; cbn [negb]; [|by rewrite app_nil_r].
  rewrite choose_command_eq. cbn [files]. fold (mode d).
  destruct (command_line fs1 (mode d) inp out) as [cmd|];
    [|by rewrite app_nil_r].
  destruct (run_tool_answer d cmd out {| files := fs1; trace := trace st ++ log |})
    as [Hr Hst].
  cbn [files trace] in Hr, Hst. rewrite Hr, Hst. cbn. by rewrite <- app_assoc.
Qed.

(** *** The [finally] clause *)

Lemma cleanup_eq inp out st :
  cleanup w inp out st
  = (inr (), {| files := sweep w inp out (files st); trace := trace st |}).
Proof.
  unfold cleanup, try_except, bind, path_exists, unlink, sweep, remove, ret.
  destruct st as [fs tr]. cbn [files trace].
  destruct (fs !! inp) as [ci|] eqn:Ei.
  - rewrite bool_decide_eq_true_2 by eauto. cbn [files trace].
    destruct (unlink_refused w inp); [done|]. rewrite Ei. cbn [files trace].
    destruct (delete inp fs !! out) as [co|] eqn:Eo.
    + rewrite bool_decide_eq_true_2 by eauto. cbn [files trace].
      destruct (unlink_refused w out); [done|]. by rewrite Eo.
    + rewrite bool_decide_eq_false_2; [done|]. by intros [? ?].
  - rewrite bool_decide_eq_false_2 by (by intros [? ?]). cbn [files trace].
    destruct (fs !! out) as [co|] eqn:Eo.
    + rewrite bool_decide_eq_true_2 by eauto. cbn [files trace].
      destruct (unlink_refused w out); [done|]. by rewrite Eo.
    + rewrite bool_decide_eq_false_2; [done|]. by intros [? ?].
Qed.

Lemma sweep_removes inp out fs :
  unlink_refused w inp = None → unlink_refused w out = None →
  sweep w inp out fs !! inp = None ∧ sweep w inp out fs !! out = None.
Proof.
  intros Hi Ho. unfold sweep, remove. rewrite Hi.
  destruct (fs !! inp) as [ci|] eqn:Ei.
  - destruct (delete inp fs !! out) as [co|] eqn:Eo; rewrite ?Ho; cbn.
    + rewrite lookup_delete_eq. destruct (decide (out = inp)) as [->|Hne].
      * by rewrite lookup_delete_eq.
      * by rewrite lookup_delete_ne, lookup_delete_eq.
    + by rewrite lookup_delete_eq.
  - destruct (fs !! out) as [co|] eqn:Eo; rewrite ?Ho; cbn.
    + rewrite lookup_delete_eq. destruct (decide (out = inp)) as [->|Hne].
      * by rewrite lookup_delete_eq.
      * by rewrite lookup_delete_ne.
    + done.
Qed.

Lemma sweep_frame inp out fs p :
  p ≠ inp → p ≠ out → sweep w inp out fs !! p = fs !! p.
Proof.
  intros Hi Ho. unfold sweep, remove.
  destruct (fs !! inp); [destruct (unlink_refused w inp); [done|] |].
  - destruct (delete inp fs !! out); [destruct (unlink_refused w out)|]; cbn;
      by rewrite ?lookup_delete_ne.
  - destruct (fs !! out); [destruct (unlink_refused w out)|]; cbn;
      by rewrite ?lookup_delete_ne.
Qed.


(** *** The whole handler *)

Lemma write_input_eq data st :
  write_input w data st
  = (match content_of data with
     | inl f => inl (oops w f)
     | inr _ => inr (scratch w)
     end,
     {| files := match content_of data with
                 | inl _ => <[scratch w := []]> (files st)
                 | inr s => <[scratch w := s]> (files st)
                 end;
        trace := trace st |}).
Proof.
  unfold write_input, content_of, bind, put_file, or_raise, ret, raise.
  cbn [files trace]. fold (scratch w).
  destruct (py_getitem data (str "content")) as [[]|]; try done.
  destruct (forallb encodable s); [|done].
  cbn [files trace]. by rewrite insert_insert_eq.
Qed.

Lemma content_of_dict data s :
  content_of data = inr s →
  ∃ d, data = JDict d ∧ assoc (str "content") d = Some (JStr s)
       ∧ forallb encodable s = true.
Proof.
  unfold content_of. destruct data as [| | | | | |d]; try done.
  cbn [py_getitem].
  destruct (assoc (str "content") d) as [v|] eqn:E; [|done].
  destruct v as [| | | |c| |]; try done.
  destruct (forallb encodable c) eqn:Hc; [|done].
  intros [= ->]. eauto.
Qed.

Lemma content_of_served d s :
  assoc (str "content") d = Some (JStr s) → forallb encodable s = true →
  content_of (JDict d) = inr s.
Proof. unfold content_of. cbn. by intros -> ->. Qed.

Lemma validated_content d v :
  assoc (str "content") d = Some v → validated (JDict d) = Some true.
Proof.
  intros Hd. unfold validated. cbn [py_in]. rewrite Hd.
  destruct d; [done|]. cbn [truthy negb].
  by rewrite bool_decide_eq_true_2 by eauto.
Qed.

(** Every request either leaves before the inner [try], having spawned
    nothing, or goes through the build stage and the verdict, after which
    the [finally] clause sweeps the scratch files. *)
Lemma deobfuscate_cases data fs :
  (∃ resp fs',
      deobfuscate w data (start fs) = (resp, {| files := fs'; trace := [] |})
      ∧ early w data fs resp fs')
  ∨ (∃ d s log fs1 ok,
        data = JDict d ∧ assoc (str "content") d = Some (JStr s)
        ∧ forallb encodable s = true
        ∧ validated data = Some true
        ∧ is_Some (fs !! MOONSEC_PATH)
        ∧ build_stage w (<[scratch w := s]> fs) log fs1 ok
        ∧ deobfuscate w data (start fs)
          = ((verdict w d (scratch w) (scratch_out w) fs1 ok).1.1,
             {| files := sweep w (scratch w) (scratch_out w)
                           (verdict w d (scratch w) (scratch_out w) fs1 ok).2;
                trace := log ++ (verdict w d (scratch w) (scratch_out w) fs1 ok).1.2 |})).
Proof.
  unfold deobfuscate, handle, bind.
  destruct (validated data) as [[]|] eqn:Hv; unfold validated in Hv.
  - (* let through *)
    assert ((if negb (truthy data) then ret false
             else or_raise (oops w (NotAContainer (type_name data)))
                    (py_in (str "content") data))
              (start fs) = (inr true, start fs)) as ->.
    { destruct (negb (truthy data)); [done|]. by rewrite Hv. }
    cbn [negb]. unfold path_exists. cbn [files start].
    destruct (fs !! MOONSEC_PATH) as [m|] eqn:Hm.
    + rewrite bool_decide_eq_true_2 by eauto. cbn [negb].
      rewrite write_input_eq. cbn [files trace].
      destruct (content_of data) as [f|s] eqn:Hc.
      * left. eexists _, _. split; [done|].
        by apply early_unwritten.
      * right. destruct (content_of_dict _ _ Hc) as (d & -> & Hd & Henc).
        fold (scratch_out w). unfold guarded, try_finally, start.
        cbn [files trace].
        destruct (attempt_paths d (scratch w) (scratch_out w)
                    {| files := <[scratch w := s]> fs; trace := [] |})
          as (log & fs1 & ok & Hstage & ->).
        rewrite cleanup_eq. cbn [files trace app].
        exists d, s, log, fs1, ok. by split_and!.
    + rewrite bool_decide_eq_false_2 by (by intros [? ?]). cbn [negb].
      left. eexists _, _. split; [done|]. by apply early_missing.
  - (* rejected *)
    assert ((if negb (truthy data) then ret false
             else or_raise (oops w (NotAContainer (type_name data)))
                    (py_in (str "content") data))
              (start fs) = (inr false, start fs)) as ->.
    { destruct (negb (truthy data)); [done|]. by rewrite Hv. }
    left. eexists _, _. split; [done|]. by apply early_rejected.
  - assert ((if negb (truthy data) then ret false
             else or_raise (oops w (NotAContainer (type_name data)))
                    (py_in (str "content") data))
              (start fs) = (inl (oops w (NotAContainer (type_name data))), start fs))
      as ->.
    { destruct (negb (truthy data)); [done|]. by rewrite Hv. }
    left. eexists _, _. split; [done|]. by apply early_type_error.
Qed.

End Stages.

Section Requests.

Context (w : world).
Implicit Types (data : json) (fs : gmap text text) (e : event)
  (d : list (text * json)).

Lemma build_stage_steps fs log fs1 ok e :
  build_stage w fs log fs1 ok → e ∈ log →
  ev_cwd e = Some MOONSEC_PATH ∧ ev_timeout e = None.
Proof.
  intros H He.
  destruct H; repeat (apply elem_of_cons in He as [->|He]);
    try (by apply elem_of_nil in He); done.
Qed.

Lemma verdict_tool d inp out fs1 ok e :
  e ∈ (verdict w d inp out fs1 ok).1.2 →
  ∃ cmd, ok = true ∧ command_line fs1 (mode d) inp out = Some cmd
         ∧ e = tool_step w cmd fs1
         ∧ (verdict w d inp out fs1 ok).1.1 = answer w d out (ev_proc e).
Proof.
  unfold verdict. destruct ok; [|by intros ?%elem_of_nil].
  destruct (command_line fs1 (mode d) inp out) as [cmd|];
    [|by intros ?%elem_of_nil].
  cbn. intros ->%list_elem_of_singleton. by exists cmd.
Qed.

(** A tool run found in the trace of a request decides its response. *)
Lemma tool_run_decides data fs e :
  e ∈ trace (deobfuscate w data (start fs)).2 → tool_run e →
  ∃ d, data = JDict d
       ∧ ev_timeout e = Some (30 # 1)%Q
       ∧ command_line (ev_files e) (mode d) (scratch w) (scratch_out w)
         = Some (ev_argv e)
       ∧ (deobfuscate w data (start fs)).1
         = answer w d (scratch_out w) (ev_proc e).
Proof.
  destruct (deobfuscate_cases w data fs)
    as [(resp & fs' & -> & _)
       |(d & s & log & fs1 & ok & -> & _ & _ & _ & _ & Hstage & ->)].
  { by intros ?%elem_of_nil. }
  cbn [fst snd trace]. intros [He|He]%elem_of_app Htool.
  - destruct (build_stage_steps _ _ _ _ _ Hstage He) as [Hcwd _].
    unfold tool_run in Htool. congruence.
  - destruct (verdict_tool _ _ _ _ _ _ He) as (cmd & -> & Hcmd & -> & Hans).
    exists d. by split_and!.
Qed.

End Requests.

(** C3. The tool is run with a limit of 30 seconds, and a request whose
    tool run takes longer is answered with HTTP 500 and the message that
    the process timed out after 30 seconds. *)
Theorem tool_run_times_out_after_30_seconds
    (w : world) (data : json) (fs : gmap text text) (e : event)
    (after : Q) (rc : Z) (out err : text) :
  e ∈ trace (deobfuscate w data (start fs)).2 →
  tool_run e →
  behaves (ev_proc e) = Exits after rc out err →
  (30 # 1 < after)%Q →
  ev_timeout e = Some (30 # 1)%Q
  ∧ (deobfuscate w data (start fs)).1
    = failure 500 (str "Process timed out after 30 seconds").
Proof.
  intros He Htool Hb Hlate.
  destruct (tool_run_decides w data fs e He Htool) as (d & -> & Hlim & _ & ->).
  split; [done|]. unfold answer. rewrite Hb.
  assert (Qle_bool after (30 # 1) = false) as Hle.
  { destruct (Qle_bool after (30 # 1)) eqn:E; [|done].
    apply Qle_bool_iff in E. by apply Qlt_not_le in Hlate. }
  cbn [timed_out]. by rewrite Hle.
Qed.

(** C4, as the code has it. When the tool exits in time with a nonzero
    code, the response is HTTP 500 and its message is "Deobfuscation
    failed: " followed by the captured error stream with the white space
    at both ends removed, or by "Unknown error" when the stream is
    empty. *)
Theorem tool_failure_reports_stripped_stderr
    (w : world) (data : json) (fs : gmap text text) (e : event)
    (after : Q) (rc : Z) (out err : text) :
  e ∈ trace (deobfuscate w data (start fs)).2 →
  tool_run e →
  behaves (ev_proc e) = Exits after rc out err →
  (after <= 30 # 1)%Q →
  rc ≠ 0%Z →
  (deobfuscate w data (start fs)).1
  = failure 500
      (str "Deobfuscation failed: "
       ++ (if nonempty err then strip err else str "Unknown error")).
Proof.
  intros He Htool Hb Hintime Hrc.
  destruct (tool_run_decides w data fs e He Htool) as (d & -> & _ & _ & ->).
  unfold answer. rewrite Hb.
  apply Qle_bool_iff in Hintime. cbn [timed_out]. rewrite Hintime.
  apply Z.eqb_neq in Hrc. by rewrite Hrc.
Qed.

Section Responses.

Context (w : world).
Implicit Types (data : json) (fs : gmap text text) (e : event)
  (d : list (text * json)).

Lemma answer_status d out p :
  status (answer w d out p) = 500%Z
  ∨ ∃ after rc so se raw,
      behaves p = Exits after rc so se
      ∧ files_after p !! out = Some raw
      ∧ answer w d out p
        = success
            (if truthy (default (JBool true) (assoc (str "pretty") d))
             then format_output (translate_newlines raw) (truthy (flag d))
             else translate_newlines raw)
            (flag d)
            (default (JStr (str "unknown.lua")) (assoc (str "filename") d)).
Proof.
  unfold answer. destruct (behaves p) as [msg|after rc so se]; [by left|].
  destruct (timed_out _ after); [by left|].
  destruct (negb (rc =? 0)%Z); [by left|].
  destruct (files_after p !! out) as [raw|] eqn:E; [|by left].
  destruct (open_refused w out); [by left|].
  right. by exists after, rc, so, se, raw.
Qed.

Lemma early_status data fs resp fs' :
  early w data fs resp fs' →
  (status resp = 400%Z
   ∧ resp = failure 400 (str "No content provided")
   ∧ validated data = Some false)
  ∨ (status resp = 500%Z ∧ validated data ≠ Some false).
Proof. destruct 1; [right|left|right|right]; split_and?; try done; congruence. Qed.

Lemma verdict_status d inp out fs1 ok :
  status (verdict w d inp out fs1 ok).1.1 = 500%Z
  ∨ ∃ cmd, (verdict w d inp out fs1 ok).1.2 = [tool_step w cmd fs1]
           ∧ (verdict w d inp out fs1 ok).1.1
             = answer w d out (ev_proc (tool_step w cmd fs1))
           ∧ status (answer w d out (ev_proc (tool_step w cmd fs1))) ≠ 500%Z.
Proof.
  unfold verdict. destruct ok; [|by left].
  destruct (command_line fs1 (mode d) inp out) as [cmd|]; [|by left].
  cbn. destruct (decide (status (answer w d out (ev_proc (tool_step w cmd fs1)))
                         = 500%Z)); [by left|].
  right. by exists cmd.
Qed.

Lemma validated_false data :
  validated data = Some false
  ↔ truthy data = false ∨ py_in (str "content") data = Some false.
Proof.
  unfold validated. destruct (truthy data); cbn.
  - split; [by right | by intros [|]].
  - split; [by left | done].
Qed.

End Responses.

(** C1, as the code has it. A successful response (HTTP 200) carries the
    content of the output file the tool left, as text mode reads it (line
    endings translated to line feeds), formatted unless [pretty] is falsy,
    and its [format] field names the requested mode: "disassembly" when
    the [disassembly] flag is truthy, "bytecode" otherwise.  Nothing is
    said about the result being non-empty. *)
Theorem success_carries_output_and_requested_format
    (w : world) (data : json) (fs : gmap text text) :
  status (deobfuscate w data (start fs)).1 = 200%Z →
  ∃ d e raw,
    data = JDict d
    ∧ e ∈ trace (deobfuscate w data (start fs)).2 ∧ tool_run e
    ∧ files_after (ev_proc e) !! scratch_out w = Some raw
    ∧ payload (deobfuscate w data (start fs)).1
      = [ (str "success", JBool true);
          (str "result",
           JStr (if truthy (default (JBool true) (assoc (str "pretty") d))
                 then format_output (translate_newlines raw) (truthy (flag d))
                 else translate_newlines raw));
          (str "format",
           JStr (if truthy (flag d) then str "disassembly" else str "bytecode"));
          (str "original_filename",
           default (JStr (str "unknown.lua")) (assoc (str "filename") d)) ].
Proof.
  destruct (deobfuscate_cases w data fs)
    as [(resp & fs' & -> & Hearly)
       |(d & s & log & fs1 & ok & -> & _ & _ & _ & _ & Hstage & ->)].
  { cbn [fst]. intros H200.
    destruct (early_status w _ _ _ _ Hearly) as [(? & _)|(? & _)]; congruence. }
  cbn [fst snd trace]. intros H200.
  destruct (verdict_status w d (scratch w) (scratch_out w) fs1 ok)
    as [H500|(cmd & Htools & Hresp & _)]; [congruence|].
  rewrite Hresp in H200 |- *. rewrite Htools.
  destruct (answer_status w d (scratch_out w) (ev_proc (tool_step w cmd fs1)))
    as [H500|(after & rc & so & se & raw & _ & Hraw & Hans)]; [congruence|].
  exists d, (tool_step w cmd fs1), raw. split_and!; try done.
  - apply elem_of_app. right. apply list_elem_of_singleton. done.
  - by rewrite Hans.
Qed.

(** X21. A request whose parsed body is falsy ([null], an empty object,
    ...) or for which Python's test ['content' in data] is false (an
    object without the field [content], an array or a string that does
    not contain it) is answered with HTTP 400, [success] false and the
    message "No content provided"; nothing is written or run. *)
Theorem missing_content_is_rejected
    (w : world) (data : json) (fs : gmap text text) :
  truthy data = false ∨ py_in (str "content") data = Some false →
  deobfuscate w data (start fs)
  = ({| status := 400;
        payload := [ (str "success", JBool false);
                     (str "error", JStr (str "No content provided")) ] |},
     start fs).
Proof.
  intros H. unfold deobfuscate, handle, bind.
  destruct (truthy data) eqn:Ht; cbn [negb]; [|done].
  destruct H as [H|H]; [done|]. by rewrite H.
Qed.

(** X22. The request is answered with HTTP 400 and "No content provided"
    exactly when the parsed body is falsy or Python's test ['content' in
    data] evaluates to false: [content] is not a key of the object, not an
    element of the array, not a substring of the string.  The body
    [{"content": ""}] is not rejected: when the tool directory and the
    build directory exist and a command line is found, the tool is run on
    a file system where the scratch input file is empty. *)
Theorem validation_rejects_exactly
    (w : world) (data : json) (fs : gmap text text) :
  ((deobfuscate w data (start fs)).1 = failure 400 (str "No content provided")
   ↔ truthy data = false ∨ py_in (str "content") data = Some false)
  ∧ (data = JDict [(str "content", JStr [])] →
     status (deobfuscate w data (start fs)).1 ≠ 400%Z
     ∧ ∀ cmd,
         is_Some (fs !! MOONSEC_PATH) → is_Some (fs !! BUILD_PATH) →
         command_line (<[scratch w := []]> fs) (str "-dev")
           (scratch w) (scratch_out w) = Some cmd →
         trace (deobfuscate w data (start fs)).2
         = [tool_step w cmd (<[scratch w := []]> fs)]).
Proof.
  rewrite <- validated_false.
  destruct (deobfuscate_cases w data fs)
    as [(resp & fs' & Heq & Hearly)
       |(d & s & log & fs1 & ok & Hd & Hs & _ & Hv & Hm & Hstage & Heq)];
    rewrite Heq; cbn [fst snd trace].
  - split.
    + destruct (early_status w _ _ _ _ Hearly) as [(_ & -> & Hv)|(H500 & Hv)].
      * done.
      * split; [|done]. intros ->. done.
    + intros ->. destruct Hearly as [Hv|Hv|Hv Hm|f Hv Hm Hc]; try done.
      split; [done|]. intros cmd [m Hm'] _ _. congruence.
  - split.
    + split.
      * intros Hresp.
        destruct (verdict_status w d (scratch w) (scratch_out w) fs1 ok)
          as [H500|(cmd & _ & Hans & _)].
        { rewrite Hresp in H500. done. }
        rewrite Hans in Hresp.
        destruct (answer_status w d (scratch_out w) (ev_proc (tool_step w cmd fs1)))
          as [H500|(? & ? & ? & ? & ? & _ & _ & Hsucc)].
        { rewrite Hresp in H500. done. }
        rewrite Hsucc in Hresp. done.
      * congruence.
    + intros ->. injection Hd as <-. injection Hs as <-.
      split.
      * destruct (verdict_status w [(str "content", JStr [])]
                    (scratch w) (scratch_out w) fs1 ok)
          as [H500|(cmd & _ & Hans & _)]; [congruence|].
        rewrite Hans.
        destruct (answer_status w [(str "content", JStr [])] (scratch_out w)
                    (ev_proc (tool_step w cmd fs1)))
          as [H500|(? & ? & ? & ? & ? & _ & _ & Hsucc)]; [congruence|].
        by rewrite Hsucc.
      * intros cmd _ Hb Hcmd.
        assert (is_Some (<[scratch w := []]> fs !! BUILD_PATH)) as Hb'.
        { apply lookup_insert_is_Some'. by right. }
        destruct Hstage as [_|Hno _|rc Hno _].
        2-3: destruct Hb' as [x Hx];
          pose proof (eq_trans (eq_sym Hx) Hno) as Habs; discriminate Habs.
        unfold verdict, mode, flag.
        replace (assoc (str "disassembly") [(str "content", JStr [])])
          with (@None json) by (by vm_compute).
        cbn [default truthy].
        match goal with
        | |- context [command_line ?a ?b ?c ?o] =>
            change (command_line a b c o = Some cmd) in Hcmd
        end.
        by rewrite Hcmd.
Qed.

Section Locating.

Context (w : world).
Implicit Types (fs : gmap text text) (e : event) (d : list (text * json)).

Lemma first_existing_spec fs paths :
  match first_existing fs paths with
  | Some exe => ∃ pre post, paths = pre ++ exe :: post
                            ∧ Forall (λ q, fs !! q = None) pre
                            ∧ is_Some (fs !! exe)
  | None => Forall (λ q, fs !! q = None) paths
  end.
Proof.
  induction paths as [|p paths IH]; [by constructor|].
  cbn [first_existing List.find].
  destruct (bool_decide (is_Some (fs !! p))) eqn:E.
  - apply bool_decide_eq_true in E. by exists [], paths.
  - apply bool_decide_eq_false in E.
    assert (fs !! p = None) as Hp.
    { destruct (fs !! p); [destruct E; eauto | done]. }
    fold (first_existing fs paths).
    destruct (first_existing fs paths) as [exe|].
    + destruct IH as (pre & post & -> & Hpre & Hexe).
      exists (p :: pre), post. split_and!; [done| by constructor |done].
    + by constructor.
Qed.

Lemma first_existing_found fs pre exe post :
  Forall (λ q, fs !! q = None) pre → is_Some (fs !! exe) →
  first_existing fs (pre ++ exe :: post) = Some exe.
Proof.
  intros Hpre Hexe. induction Hpre as [|q pre Hq _ IH].
  - cbn [app first_existing List.find]. by rewrite bool_decide_eq_true_2.
  - cbn [app first_existing List.find].
    rewrite bool_decide_eq_false_2; [exact IH|]. rewrite Hq. by intros [? ?].
Qed.

Lemma first_existing_none fs paths :
  Forall (λ q, fs !! q = None) paths → first_existing fs paths = None.
Proof.
  induction 1 as [|q paths Hq _ IH]; [done|].
  cbn [first_existing List.find].
  rewrite bool_decide_eq_false_2; [exact IH|]. rewrite Hq. by intros [? ?].
Qed.

Lemma command_line_not_build fs command inp out argv :
  command_line fs command inp out = Some argv → argv ≠ DOTNET_BUILD.
Proof.
  unfold command_line, DOTNET_BUILD.
  destruct (first_existing fs possible_paths); [by intros [= <-]|].
  destruct (bool_decide _); [by intros [= <-]|done].
Qed.

Lemma build_stage_builds_once fs log fs1 ok :
  build_stage w fs log fs1 ok →
  (length (filter (λ e, ev_argv e = DOTNET_BUILD) log) ≤ 1)%nat.
Proof.
  assert (DOTNET_CLEAN ≠ DOTNET_BUILD) as Hne by done.
  destruct 1.
  - cbn. lia.
  - rewrite filter_cons_False by done. cbn. lia.
  - rewrite filter_cons_False by done. rewrite filter_cons_True by done.
    cbn. lia.
Qed.

End Locating.

(** C6, as the code has it. What triggers the build is the absence of
    the build directory, looked up before any candidate is probed.  For a
    request that reaches the inner [try]: when the directory exists
    nothing is built; when it is missing [dotnet clean] is run, then,
    unless that step could not be run to its end, [dotnet build] on the
    files the clean step left, both waited for and neither retried, and a
    failed build is answered with HTTP 500 "Failed to build Moonsec tool"
    without the tool being run.  Otherwise the tool is run once, on the
    files the build stage left, from the first candidate that exists
    there; when none exists it is run through [dotnet] and the dll, and
    when the dll is missing too the request is answered with HTTP 500
    "Moonsec executable not found. Try building first." and nothing more
    is run.  No request runs [dotnet build] more than once. *)
Theorem build_when_directory_missing_then_first_candidate
    (w : world) (data : json) (fs : gmap text text) :
  (length (filter (λ e, ev_argv e = DOTNET_BUILD)
             (trace (deobfuscate w data (start fs)).2)) ≤ 1)%nat
  ∧ ∀ d s,
      data = JDict d →
      assoc (str "content") d = Some (JStr s) →
      forallb encodable s = true →
      is_Some (fs !! MOONSEC_PATH) →
      ∃ log fs1 ok,
        build_stage w (<[scratch w := s]> fs) log fs1 ok
        ∧ (ok = false →
           trace (deobfuscate w data (start fs)).2 = log
           ∧ (deobfuscate w data (start fs)).1
             = failure 500 (str "Failed to build Moonsec tool"))
        ∧ (ok = true →
           (∀ pre exe post,
               possible_paths = pre ++ exe :: post →
               Forall (λ q, fs1 !! q = None) pre →
               is_Some (fs1 !! exe) →
               trace (deobfuscate w data (start fs)).2
               = log ++ [tool_step w [exe; mode d; str "-i"; scratch w;
                                      str "-o"; scratch_out w] fs1])
           ∧ (Forall (λ q, fs1 !! q = None) possible_paths →
              is_Some (fs1 !! pjoin BUILD_PATH (str "MoonsecDeobfuscator.dll")) →
              trace (deobfuscate w data (start fs)).2
              = log ++ [tool_step w
                          [str "dotnet";
                           pjoin BUILD_PATH (str "MoonsecDeobfuscator.dll");
                           mode d; str "-i"; scratch w;
                           str "-o"; scratch_out w] fs1])
           ∧ (Forall (λ q, fs1 !! q = None) possible_paths →
              fs1 !! pjoin BUILD_PATH (str "MoonsecDeobfuscator.dll") = None →
              trace (deobfuscate w data (start fs)).2 = log
              ∧ (deobfuscate w data (start fs)).1
                = failure 500
                    (str "Moonsec executable not found. Try building first."))).
Proof.
  split.
  - destruct (deobfuscate_cases w data fs)
      as [(resp & fs' & -> & _)
         |(d & s & log & fs1 & ok & -> & _ & _ & _ & _ & Hstage & ->)].
    { cbn. lia. }
    cbn [fst snd trace]. rewrite filter_app, length_app.
    pose proof (build_stage_builds_once w _ _ _ _ Hstage) as Hcount.
    assert (filter (λ e, ev_argv e = DOTNET_BUILD)
              (verdict w d (scratch w) (scratch_out w) fs1 ok).1.2 = []) as ->.
    { unfold verdict. destruct ok; [|done].
      destruct (command_line fs1 (mode d) (scratch w) (scratch_out w))
        as [cmd|] eqn:Hcmd; [|done].
      cbn [fst snd]. rewrite filter_cons_False; [done|].
      cbn. by eapply command_line_not_build. }
    cbn. lia.
  - intros d s -> Hd Hs [m Hm].
    destruct (deobfuscate_cases w (JDict d) fs)
      as [(resp & fs' & _ & Hearly)
         |(d' & s' & log & fs1 & ok & [= <-] & Hd' & _ & _ & _ & Hstage & ->)].
    { pose proof (validated_content d _ Hd) as Hv.
      pose proof (content_of_served d s Hd Hs) as Hc.
      destruct Hearly; congruence. }
    assert (s' = s) as -> by congruence.
    exists log, fs1, ok. split; [exact Hstage|].
    cbn [fst snd trace]. unfold verdict. split.
    + intros ->. cbn [fst snd]. by rewrite app_nil_r.
    + intros ->. unfold command_line. split_and!.
      * intros pre exe post Hsplit Hpre Hexe.
        rewrite Hsplit, (first_existing_found fs1 pre exe post Hpre Hexe).
        done.
      * intros Hnone Hdll. rewrite (first_existing_none fs1 _ Hnone).
        by rewrite bool_decide_eq_true_2.
      * intros Hnone Hdll. rewrite (first_existing_none fs1 _ Hnone).
        rewrite bool_decide_eq_false_2 by (rewrite Hdll; by intros [? ?]).
        cbn [fst snd]. by rewrite app_nil_r.
Qed.

Section ScratchFiles.

Context (w : world).
Implicit Types (data : json) (fs : gmap text text).

(** Once the inner [try] is entered, the [finally] clause leaves neither
    scratch file behind, provided [os.unlink] does not refuse. *)
Lemma scratch_files_removed data fs s :
  (∀ p, unlink_refused w p = None) →
  validated data = Some true → is_Some (fs !! MOONSEC_PATH) →
  content_of data = inr s →
  files (deobfuscate w data (start fs)).2 !! scratch w = None
  ∧ files (deobfuscate w data (start fs)).2 !! scratch_out w = None.
Proof.
  intros Hfree Hv [m Hm] Hc.
  destruct (deobfuscate_cases w data fs)
    as [(resp & fs' & _ & Hearly)
       |(d & s' & log & fs1 & ok & -> & _ & _ & _ & _ & _ & ->)].
  - destruct Hearly; congruence.
  - cbn [snd files]. by apply sweep_removes.
Qed.

(** When the write into the fresh temporary file raises, the request is
    answered by the outer handler and the file stays. *)
Lemma scratch_file_left_behind data fs f :
  validated data = Some true → is_Some (fs !! MOONSEC_PATH) →
  content_of data = inl f →
  deobfuscate w data (start fs)
  = (failure 500 (str "Server error: " ++ wording w f),
     {| files := <[scratch w := []]> fs; trace := [] |}).
Proof.
  intros Hv [m Hm] Hc.
  destruct (deobfuscate_cases w data fs)
    as [(resp & fs' & -> & Hearly)
       |(d & s & log & fs1 & ok & -> & Hd & Hs & _ & _ & _ & _)].
  - destruct Hearly; congruence.
  - rewrite (content_of_served d s Hd Hs) in Hc. done.
Qed.

End ScratchFiles.

(** ** The claims on sample machines *)

(** The trace is evaluated, and the tool run is its only entry. *)
Ltac only_run :=
  match goal with
  | |- ?e ∈ ?t =>
      let H := fresh in
      assert (t = [e]) as H by (vm_cast_no_check (eq_refl [e]));
      rewrite H; apply list_elem_of_singleton; reflexivity
  end.

(** C1 fails as stated: the request carries a non-empty text and succeeds,
    yet the result is empty (the tool wrote a single line break, which the
    formatter drops). *)
Lemma success_with_empty_result :
  nonempty (str "print(1)") = true
  ∧ status (deobfuscate w_blank (post (str "print(1)")) (start fs_built)).1
    = 200%Z
  ∧ assoc (str "result")
      (payload (deobfuscate w_blank (post (str "print(1)")) (start fs_built)).1)
    = Some (JStr []).
Proof. split_and!; vm_compute; reflexivity. Qed.

(** A request that succeeds: the tool writes [x=1;y=2] and exits with 0. *)
Lemma success_carries_output_witness :
  status (deobfuscate w_fine (post (str "print(1)")) (start fs_built)).1 = 200%Z
  ∧ ∃ d e raw,
      post (str "print(1)") = JDict d
      ∧ e ∈ trace (deobfuscate w_fine (post (str "print(1)")) (start fs_built)).2
      ∧ tool_run e
      ∧ files_after (ev_proc e) !! scratch_out w_fine = Some raw
      ∧ payload (deobfuscate w_fine (post (str "print(1)")) (start fs_built)).1
        = [ (str "success", JBool true);
            (str "result",
             JStr (if truthy (default (JBool true) (assoc (str "pretty") d))
                   then format_output (translate_newlines raw) (truthy (flag d))
                   else translate_newlines raw));
            (str "format",
             JStr (if truthy (flag d) then str "disassembly"
                   else str "bytecode"));
            (str "original_filename",
             default (JStr (str "unknown.lua")) (assoc (str "filename") d)) ].
Proof.
  split; [vm_compute; reflexivity|].
  apply (success_carries_output_and_requested_format w_fine
           (post (str "print(1)")) fs_built).
  vm_compute. reflexivity.
Defined.

(** What the model has of text mode and of strict decoding, on samples:
    the line endings of the output file are translated when it is read; an
    output file that cannot be opened is a processing error; [dotnet]
    output that does not decode makes [check_dotnet] answer False and the
    build fail after the clean step. *)
Lemma text_mode_samples :
  assoc (str "result")
    (payload (deobfuscate w_crlf
                (JDict [(str "content", JStr (str "print(1)"));
                        (str "pretty", JBool false)])
                (start fs_built)).1)
  = Some (JStr (str "a" ++ [NL] ++ str "b" ++ [NL] ++ str "c"))
  ∧ (deobfuscate w_locked (post (str "print(1)")) (start fs_built)).1
    = failure 500 (str "Processing error: [Errno 13] Permission denied")
  ∧ (check_dotnet w_garbled (start ∅)).1 = inr false
  ∧ (deobfuscate w_garbled (post (str "print(1)")) (start fs_sources)).1
    = failure 500 (str "Failed to build Moonsec tool")
  ∧ length (trace (deobfuscate w_garbled (post (str "print(1)"))
                     (start fs_sources)).2) = 1%nat.
Proof. split_and!; vm_compute; reflexivity. Qed.

(** C2 on a failing input. The body [true] is valid JSON and has no
    [content] field, yet the response is not the HTTP 400 of line 94: the
    membership test of line 90, written for an object, raises [TypeError]
    on a boolean, and the outer handler answers HTTP 500 "Server error:
    ...", on every machine and whatever the files.  The body [false], as
    falsy, is rejected with HTTP 400. *)
Theorem boolean_body_is_not_rejected :
  py_getitem (JBool true) (str "content") = None
  ∧ (∀ (w : world) (fs : gmap text text),
       deobfuscate w (JBool true) (start fs)
       = (failure 500
            (str "Server error: " ++ wording w (NotAContainer (str "bool"))),
          start fs))
  ∧ (deobfuscate w_fine (JBool true) (start fs_built)).1
    = failure 500 (str "Server error: argument of type 'bool' is not iterable")
  ∧ status (deobfuscate w_fine (JBool true) (start fs_built)).1 ≠ 400%Z
  ∧ (deobfuscate w_fine (JBool false) (start fs_built)).1
    = failure 400 (str "No content provided").
Proof.
  split_and!;
    [reflexivity | reflexivity | vm_compute; reflexivity | by vm_compute
    | vm_compute; reflexivity].
Qed.

(** An object that carries a file name only. *)
Lemma missing_content_witness :
  py_in (str "content") (JDict [(str "filename", JStr (str "a.lua"))])
  = Some false
  ∧ deobfuscate w_fine (JDict [(str "filename", JStr (str "a.lua"))])
      (start fs_built)
    = ({| status := 400;
          payload := [ (str "success", JBool false);
                       (str "error", JStr (str "No content provided")) ] |},
       start fs_built).
Proof.
  assert (py_in (str "content") (JDict [(str "filename", JStr (str "a.lua"))])
          = Some false) as H by (vm_compute; reflexivity).
  split; [exact H|].
  exact (missing_content_is_rejected w_fine _ fs_built (or_intror H)).
Defined.

(** A tool that needs 31 seconds. *)
Lemma tool_run_times_out_witness :
  ev_timeout (sample_run w_slow (str "print(1)")) = Some (30 # 1)%Q
  ∧ (deobfuscate w_slow (post (str "print(1)")) (start fs_built)).1
    = failure 500 (str "Process timed out after 30 seconds").
Proof.
  apply (tool_run_times_out_after_30_seconds w_slow (post (str "print(1)"))
           fs_built (sample_run w_slow (str "print(1)")) (31 # 1) 0 [] []).
  - only_run.
  - reflexivity.
  - reflexivity.
  - reflexivity.
Defined.

(** C4 fails as stated: the tool exits with code 1 and the error stream
    "boom" followed by a line break; the message of the response is
    "Deobfuscation failed: boom", which is not that text. *)
Lemma stderr_is_not_reported_verbatim :
  sample_run w_boom (str "print(1)")
    ∈ trace (deobfuscate w_boom (post (str "print(1)")) (start fs_built)).2
  ∧ behaves (ev_proc (sample_run w_boom (str "print(1)")))
    = Exits (1 # 1) 1 [] (str "boom" ++ [NL])
  ∧ (deobfuscate w_boom (post (str "print(1)")) (start fs_built)).1
    = failure 500 (str "Deobfuscation failed: boom")
  ∧ assoc (str "error")
      (payload (deobfuscate w_boom (post (str "print(1)")) (start fs_built)).1)
    ≠ Some (JStr (str "boom" ++ [NL]))
  ∧ contains (str "boom" ++ [NL]) (str "Deobfuscation failed: boom") = false.
Proof.
  split_and!.
  - only_run.
  - reflexivity.
  - vm_compute. reflexivity.
  - by vm_compute.
  - vm_compute. reflexivity.
Qed.

(** The failing tool again, through the general statement. *)
Lemma tool_failure_witness :
  (deobfuscate w_boom (post (str "print(1)")) (start fs_built)).1
  = failure 500
      (str "Deobfuscation failed: "
       ++ (if nonempty (str "boom" ++ [NL]) then strip (str "boom" ++ [NL])
           else str "Unknown error")).
Proof.
  apply (tool_failure_reports_stripped_stderr w_boom (post (str "print(1)"))
           fs_built (sample_run w_boom (str "print(1)")) (1 # 1) 1 []
           (str "boom" ++ [NL])).
  - only_run.
  - reflexivity.
  - reflexivity.
  - by vm_compute.
  - lia.
Defined.

(** C5 on the failing inputs. The body [{"content": "\ud800"}] holds a
    string that UTF-8 cannot encode, the body [{"content": 123}] no string
    at all: [f.write] raises after the temporary file was created and
    before the inner [try] is entered, so the outer handler answers and
    the file, which was not there before, stays behind. *)
Theorem scratch_file_leaks_when_write_fails :
  fs_built !! scratch w_fine = None
  ∧ deobfuscate w_fine (post [55296]) (start fs_built)
    = (failure 500 (str "Server error: " ++ cpython_wording NotEncodable),
       {| files := <[scratch w_fine := []]> fs_built; trace := [] |})
  ∧ files (deobfuscate w_fine (post [55296]) (start fs_built)).2
      !! scratch w_fine = Some []
  ∧ deobfuscate w_fine (JDict [(str "content", JInt 123)]) (start fs_built)
    = (failure 500 (str "Server error: " ++ cpython_wording (WriteNotStr (str "int"))),
       {| files := <[scratch w_fine := []]> fs_built; trace := [] |})
  ∧ files (deobfuscate w_fine (JDict [(str "content", JInt 123)])
             (start fs_built)).2
      !! scratch w_fine = Some [].
Proof.
  assert (is_Some (fs_built !! MOONSEC_PATH)) as Hm.
  { exists []. vm_compute. reflexivity. }
  assert (deobfuscate w_fine (post [55296]) (start fs_built)
          = (failure 500 (str "Server error: " ++ cpython_wording NotEncodable),
             {| files := <[scratch w_fine := []]> fs_built; trace := [] |}))
    as H1.
  { apply (scratch_file_left_behind w_fine (post [55296]) fs_built NotEncodable);
      [vm_compute; reflexivity | exact Hm | vm_compute; reflexivity]. }
  assert (deobfuscate w_fine (JDict [(str "content", JInt 123)]) (start fs_built)
          = (failure 500 (str "Server error: " ++ cpython_wording (WriteNotStr (str "int"))),
             {| files := <[scratch w_fine := []]> fs_built; trace := [] |}))
    as H2.
  { apply (scratch_file_left_behind w_fine _ fs_built (WriteNotStr (str "int")));
      [vm_compute; reflexivity | exact Hm | vm_compute; reflexivity]. }
  split_and!.
  - vm_compute. reflexivity.
  - exact H1.
  - rewrite H1. apply lookup_insert_eq.
  - exact H2.
  - rewrite H2. apply lookup_insert_eq.
Qed.

(** C6 fails as stated: the build directory exists and holds none of the
    candidates (nor the dll); nothing is built, and the request fails. *)
Lemma no_build_when_build_directory_is_empty :
  Forall (λ q, fs_empty_build !! q = None) possible_paths
  ∧ trace (deobfuscate w_fine (post (str "print(1)")) (start fs_empty_build)).2
    = []
  ∧ (deobfuscate w_fine (post (str "print(1)")) (start fs_empty_build)).1
    = failure 500 (str "Moonsec executable not found. Try building first.").
Proof.
  split_and!.
  - unfold possible_paths. repeat (constructor; [by vm_compute|]). constructor.
  - vm_compute. reflexivity.
  - vm_compute. reflexivity.
Qed.

(** A machine on which only the sources are there: the build directory
    is missing, so the tool is cleaned and built, and then located on the
    files the build left. *)
Lemma build_when_directory_missing_witness :
  (length (filter (λ e, ev_argv e = DOTNET_BUILD)
             (trace (deobfuscate w_fine (post (str "print(1)"))
                       (start fs_sources)).2)) ≤ 1)%nat
  ∧ ∃ log fs1 ok,
      build_stage w_fine (<[scratch w_fine := str "print(1)"]> fs_sources)
        log fs1 ok
      ∧ (ok = false →
         trace (deobfuscate w_fine (post (str "print(1)")) (start fs_sources)).2
         = log
         ∧ (deobfuscate w_fine (post (str "print(1)")) (start fs_sources)).1
           = failure 500 (str "Failed to build Moonsec tool"))
      ∧ (ok = true →
         (∀ pre exe rest,
             possible_paths = pre ++ exe :: rest →
             Forall (λ q, fs1 !! q = None) pre →
             is_Some (fs1 !! exe) →
             trace (deobfuscate w_fine (post (str "print(1)"))
                      (start fs_sources)).2
             = log ++ [tool_step w_fine
                         [exe; str "-dev"; str "-i"; scratch w_fine;
                          str "-o"; scratch_out w_fine] fs1])
         ∧ (Forall (λ q, fs1 !! q = None) possible_paths →
            is_Some (fs1 !! pjoin BUILD_PATH (str "MoonsecDeobfuscator.dll")) →
            trace (deobfuscate w_fine (post (str "print(1)"))
                     (start fs_sources)).2
            = log ++ [tool_step w_fine
                        [str "dotnet";
                         pjoin BUILD_PATH (str "MoonsecDeobfuscator.dll");
                         str "-dev"; str "-i"; scratch w_fine;
                         str "-o"; scratch_out w_fine] fs1])
         ∧ (Forall (λ q, fs1 !! q = None) possible_paths →
            fs1 !! pjoin BUILD_PATH (str "MoonsecDeobfuscator.dll") = None →
            trace (deobfuscate w_fine (post (str "print(1)"))
                     (start fs_sources)).2 = log
            ∧ (deobfuscate w_fine (post (str "print(1)")) (start fs_sources)).1
              = failure 500
                  (str "Moonsec executable not found. Try building first."))).
Proof.
  destruct (build_when_directory_missing_then_first_candidate w_fine
              (post (str "print(1)")) fs_sources) as [Hcount Hserved].
  split; [exact Hcount|].
  apply (Hserved [(str "content", JStr (str "print(1)"))] (str "print(1)")).
  - reflexivity.
  - vm_compute. reflexivity.
  - vm_compute. reflexivity.
  - exists []. vm_compute. reflexivity.
Defined.

(** On that machine the request runs the three processes in this order:
    clean, build, and the tool from the second candidate, which the build
    created. *)
Lemma clean_build_then_second_candidate :
  trace (deobfuscate w_fine (post (str "print(1)")) (start fs_sources)).2
  = [ clean_step w_fine (<[scratch w_fine := str "print(1)"]> fs_sources);
      build_step w_fine (<[scratch w_fine := str "print(1)"]> fs_sources);
      sample_run_after_build w_fine (str "print(1)") ].
Proof.
  match goal with
  | |- ?t = ?l =>
      let H := fresh in
      assert (t = l) as H by (vm_cast_no_check (eq_refl l));
      exact H
  end.
Qed.


(** C10 on a failing input. The body [5] is truthy and has no key
    [content], so the validation should reject it with HTTP 400 "No
    content provided"; instead the membership test of line 90 raises
    [TypeError] on the number, and the outer handler answers HTTP 500
    "Server error: ...", on every machine and whatever the files.  The
    body [0], as falsy, is rejected with HTTP 400. *)
Theorem number_body_is_not_rejected :
  truthy (JInt 5) = true
  ∧ py_getitem (JInt 5) (str "content") = None
  ∧ (∀ (w : world) (fs : gmap text text),
       deobfuscate w (JInt 5) (start fs)
       = (failure 500
            (str "Server error: " ++ wording w (NotAContainer (str "int"))),
          start fs))
  ∧ (deobfuscate w_fine (JInt 5) (start fs_built)).1
    = failure 500 (str "Server error: argument of type 'int' is not iterable")
  ∧ (deobfuscate w_fine (JInt 5) (start fs_built)).1
    ≠ failure 400 (str "No content provided")
  ∧ (deobfuscate w_fine (JInt 0) (start fs_built)).1
    = failure 400 (str "No content provided").
Proof.
  split_and!;
    [reflexivity | reflexivity | reflexivity | vm_compute; reflexivity
    | by vm_compute | vm_compute; reflexivity].
Qed.

(** The body with an empty [content]: the tool is run on the empty scratch
    file. *)
Lemma validation_witness :
  status (deobfuscate w_fine (post []) (start fs_built)).1 ≠ 400%Z
  ∧ trace (deobfuscate w_fine (post []) (start fs_built)).2
    = [sample_run w_fine []].
Proof.
  destruct (validation_rejects_exactly w_fine (post []) fs_built)
    as [_ Hpass].
  destruct (Hpass eq_refl) as [Hstatus Hrun].
  split; [exact Hstatus|].
  apply Hrun.
  - exists []. vm_compute. reflexivity.
  - exists []. vm_compute. reflexivity.
  - vm_compute. reflexivity.
Defined.

(** * Further properties *)

(** ** The formatter *)

Section FormatterFacts.

Implicit Types (s k l t : text) (c : char) (K ls : list text).

Lemma visible_cons c s :
  visible (c :: s) = if is_space c then visible s else c :: visible s.
Proof.
  unfold visible. destruct (is_space c) eqn:E.
  - by rewrite filter_cons_False by congruence.
  - by rewrite filter_cons_True.
Qed.

Lemma visible_app a b : visible (a ++ b) = visible a ++ visible b.
Proof. apply filter_app. Qed.

Lemma visible_rstrip s : visible (rstrip s) = visible s.
Proof.
  induction s as [|c s IH]; [done|].
  rewrite rstrip_cons, (visible_cons c s), <- IH.
  destruct (rstrip s) as [|x r].
  - destruct (is_space c) eqn:Hc; [done|]. by rewrite visible_cons, Hc.
  - by rewrite (visible_cons c (x :: r)).
Qed.

Lemma visible_blank s : blank s = true → visible s = [].
Proof.
  induction s as [|c s IH]; [done|]. cbn [blank forallb].
  intros [Hc Hs]%andb_true_iff. rewrite visible_cons, Hc. by apply IH.
Qed.

Lemma visible_split s : flat_map visible (split NL s) = visible s.
Proof.
  induction s as [|c s IH]; [done|].
  destruct (decide (c = NL)) as [->|Hc].
  - cbn [split]. rewrite N.eqb_refl. cbn [flat_map]. by rewrite IH.
  - destruct (split_cons_other NL c s Hc) as (l & ls & Hs & ->).
    rewrite Hs in IH. cbn [flat_map] in *.
    rewrite !visible_cons. destruct (is_space c); [done|].
    cbn. by rewrite IH.
Qed.

Lemma visible_join K : visible (join [NL] K) = flat_map visible K.
Proof.
  induction K as [|k K IH]; [done|].
  destruct K as [|k' K]; [cbn; by rewrite app_nil_r|].
  rewrite join_cons_cons, !visible_app, IH. done.
Qed.

Lemma keep_byte_dis t : keep_byte t = keep_dis t.
Proof.
  unfold keep_byte, keep_dis. rewrite fold_dis_step. cbn [app].
  induction (split NL t) as [|l ls IH]; [done|].
  cbn [map]. destruct (blank l) eqn:E.
  - rewrite filter_cons_False by (rewrite nonempty_strip, E; done).
    rewrite filter_cons_False by (rewrite nonempty_rstrip, E; done). done.
  - rewrite filter_cons_True by (rewrite nonempty_strip, E; done).
    rewrite filter_cons_True by (rewrite nonempty_rstrip, E; done).
    cbn [map]. by rewrite IH.
Qed.

Lemma visible_keep_dis t : flat_map visible (keep_dis t) = visible t.
Proof.
  rewrite <- (visible_split t). unfold keep_dis. rewrite fold_dis_step.
  cbn [app]. induction (split NL t) as [|l ls IH]; [done|].
  cbn [map flat_map]. destruct (blank l) eqn:E.
  - rewrite filter_cons_False by (rewrite nonempty_rstrip, E; done).
    by rewrite IH, (visible_blank l E).
  - rewrite filter_cons_True by (rewrite nonempty_rstrip, E; done).
    cbn [flat_map]. by rewrite IH, visible_rstrip.
Qed.

Lemma visible_expand s : visible (expand s) = visible s.
Proof.
  induction s as [|c s IH]; [done|].
  change (expand (c :: s)) with (expand_char c ++ expand s).
  rewrite visible_app, IH, visible_cons. unfold expand_char.
  destruct (c =? RBRACE) eqn:E1; [apply N.eqb_eq in E1; by subst c|].
  destruct (c =? LBRACE) eqn:E2; [apply N.eqb_eq in E2; by subst c|].
  destruct (c =? SEMI) eqn:E3; [apply N.eqb_eq in E3; by subst c|].
  rewrite visible_cons. by destruct (is_space c).
Qed.

Lemma split_join K :
  K ≠ [] → Forall (λ k, NL ∉ k) K → split NL (join [NL] K) = K.
Proof.
  intros Hne HK. induction HK as [|k K Hk HK IH]; [done|].
  destruct K as [|k' K]; [by apply split_without_sep|].
  rewrite join_cons_cons. cbn [app]. rewrite split_app_sep.
  rewrite split_without_sep by done. by rewrite IH.
Qed.

Lemma expand_plain s :
  Forall (λ c, c ≠ SEMI ∧ c ≠ LBRACE ∧ c ≠ RBRACE) s → expand s = s.
Proof.
  induction 1 as [|c s (H1 & H2 & H3) _ IH]; [done|].
  change (expand (c :: s)) with (expand_char c ++ expand s).
  unfold expand_char.
  apply N.eqb_neq in H1, H2, H3. rewrite H1, H2, H3, IH. done.
Qed.

Lemma nonempty_expand s : nonempty (expand s) = nonempty s.
Proof.
  destruct s as [|c s]; [done|].
  change (expand (c :: s)) with (expand_char c ++ expand s).
  unfold expand_char.
  destruct (c =? RBRACE); [done|]. destruct (c =? LBRACE); [done|].
  by destruct (c =? SEMI).
Qed.

(** Where a character may stand in a tidy line. *)
Lemma tidy_places l a c b :
  tidy l → l = a ++ c :: b →
  (c = SEMI ∨ c = LBRACE → b = []) ∧ (c = RBRACE → a = []).
Proof.
  intros Ht ->. induction a as [|x a IH].
  - destruct Ht as ([->|[? ?]] & _ & _); split; try done.
    intros [?|?]; congruence.
  - destruct Ht as (_ & Hh & Ht). destruct (IH Ht) as [H1 H2].
    split; [done|]. intros Hc. rewrite (H2 Hc) in Hh. by cbn in Hh.
Qed.

End FormatterFacts.

(** X1. The formatter only touches white space: in either mode the
    characters of the output that are not white space are those of the
    input, in the same order. *)
Theorem format_output_keeps_visible_text (content : text) (is_disassembly : bool) :
  visible (format_output content is_disassembly) = visible content.
Proof.
  destruct is_disassembly.
  - rewrite format_output_dis_eq. destruct (nonempty content); [|done].
    by rewrite visible_join, visible_keep_dis.
  - rewrite format_output_byte_eq. destruct (nonempty content); [|done].
    by rewrite visible_join, keep_byte_dis, visible_keep_dis, visible_expand.
Qed.

(** X2. In either mode the output is empty or made of lines none of which
    is blank or ends in white space; in particular it has no empty line
    and does not end with a line break. *)
Theorem format_output_lines_are_clean (content : text) (is_disassembly : bool) :
  format_output content is_disassembly = []
  ∨ Forall (λ line, blank line = false ∧ rstrip line = line)
      (split NL (format_output content is_disassembly)).
Proof.
  assert (∀ t, join [NL] (keep_dis t) = []
               ∨ Forall (λ line, blank line = false ∧ rstrip line = line)
                   (split NL (join [NL] (keep_dis t)))) as Hdis.
  { intros t. pose proof (keep_dis_lines t) as HK.
    destruct (keep_dis t) as [|k K] eqn:E; [by left|]. right.
    rewrite split_join; [|done|].
    - eapply Forall_impl; [exact HK|]. intros l (_ & Hr & Hn).
      split; [|done]. rewrite <- Hr, nonempty_rstrip in Hn.
      by destruct (blank l).
    - eapply Forall_impl; [exact HK|]. by intros l (? & _). }
  destruct is_disassembly.
  - rewrite format_output_dis_eq. destruct (nonempty content) eqn:Hc.
    + apply Hdis.
    + left. by destruct content.
  - rewrite format_output_byte_eq. destruct (nonempty content) eqn:Hc.
    + rewrite keep_byte_dis. apply Hdis.
    + left. by destruct content.
Qed.

(** X3. In the output of the bytecode mode a semicolon or an opening
    brace is the last character of its line, and a closing brace the
    first character of its line. *)
Theorem format_output_bytecode_places (content line a b : text) (c : char) :
  line ∈ split NL (format_output content false) →
  line = a ++ c :: b →
  (c = SEMI ∨ c = LBRACE → b = []) ∧ (c = RBRACE → a = []).
Proof.
  intros Hline. apply tidy_places. revert Hline.
  rewrite format_output_byte_eq. destruct (nonempty content) eqn:Hc.
  - pose proof (keep_byte_lines content) as HK.
    destruct (keep_byte (expand content)) as [|k K] eqn:E.
    + cbn. by intros ->%list_elem_of_singleton.
    + rewrite split_join; [|done|].
      * intros Hin. rewrite Forall_forall in HK. by destruct (HK _ Hin) as (_ & ? & _).
      * eapply Forall_impl; [exact HK|]. by intros l (? & _).
  - destruct content; [|done]. cbn. by intros ->%list_elem_of_singleton.
Qed.

(** X4. The bytecode mode is the disassembly mode applied after the three
    replacements. *)
Theorem format_output_bytecode_is_disassembly_after_breaks (content : text) :
  format_output content false
  = format_output
      (replace [RBRACE] [NL; RBRACE]
         (replace [LBRACE] [LBRACE; NL] (replace [SEMI] [SEMI; NL] content)))
      true.
Proof.
  rewrite replace_thrice, format_output_byte_eq, format_output_dis_eq.
  rewrite nonempty_expand, keep_byte_dis.
  destruct content; done.
Qed.

(** X5. On a text without semicolon and braces the two modes give the
    same output. *)
Theorem format_output_modes_agree_on_plain_text (content : text) :
  Forall (λ c, c ≠ SEMI ∧ c ≠ LBRACE ∧ c ≠ RBRACE) content →
  format_output content false = format_output content true.
Proof.
  intros H. rewrite format_output_byte_eq, format_output_dis_eq.
  by rewrite (expand_plain content H), keep_byte_dis.
Qed.

(** X6. The disassembly mode leaves the output of either mode unchanged:
    text formatted as bytecode can be passed through it again freely. *)
Theorem format_output_disassembly_fixes_bytecode_output (content : text) :
  format_output (format_output content false) true
  = format_output content false.
Proof.
  rewrite (format_output_byte_eq content).
  destruct (nonempty content) eqn:Hc.
  - rewrite format_output_dis_eq.
    destruct (nonempty (join [NL] (keep_byte (expand content)))); [|done].
    f_equal. apply (keep_join (λ t, t) keep_dis); try done.
    + apply keep_dis_app.
    + eapply Forall_impl; [apply keep_byte_lines|].
      intros k (Hnl & _ & Hr & Hb). apply keep_dis_line; try done.
      rewrite <- Hr, nonempty_rstrip. by rewrite Hb.
  - rewrite format_output_dis_eq. by rewrite Hc.
Qed.

Section Lengths.

Implicit Types (s k l : text) (K ls : list text).

Lemma join_split s : join [NL] (split NL s) = s.
Proof.
  induction s as [|c s IH]; [done|].
  destruct (decide (c = NL)) as [->|Hc].
  - cbn [split]. rewrite N.eqb_refl.
    destruct (split NL s) as [|l ls] eqn:E; [by apply split_not_nil in E|].
    rewrite join_cons_cons, IH. done.
  - destruct (split_cons_other NL c s Hc) as (l & ls & Hs & ->).
    rewrite Hs in IH. destruct ls as [|l' ls].
    + cbn in *. by rewrite IH.
    + rewrite join_cons_cons. rewrite join_cons_cons in IH.
      cbn [app] in *. by rewrite IH.
Qed.

Lemma length_rstrip s : (length (rstrip s) ≤ length s)%nat.
Proof.
  destruct (rstrip_prefix s) as [w Hw]. rewrite Hw at 2.
  rewrite length_app. lia.
Qed.

Lemma length_join_cons k K :
  length (join [NL] (k :: K))
  = (length k + match K with [] => 0 | _ :: _ => S (length (join [NL] K)) end)%nat.
Proof.
  destruct K as [|k' K]; [cbn; lia|].
  rewrite join_cons_cons, !length_app. done.
Qed.

Lemma length_kept ls :
  (length (join [NL] (filter (λ l, nonempty l = true) (map rstrip ls)))
   ≤ length (join [NL] ls))%nat.
Proof.
  induction ls as [|l ls IH]; [done|].
  cbn [map]. rewrite (length_join_cons l ls).
  destruct (nonempty (rstrip l)) eqn:E.
  - rewrite filter_cons_True by done. rewrite length_join_cons.
    pose proof (length_rstrip l).
    destruct (filter _ (map rstrip ls)) as [|k K] eqn:EK; [lia|].
    destruct ls as [|l' ls]; [done|]. lia.
  - rewrite filter_cons_False by congruence.
    destruct ls as [|l' ls]; [cbn in *; lia|]. lia.
Qed.

End Lengths.

(** X7. The disassembly mode never makes a text longer. *)
Theorem format_output_disassembly_never_longer (content : text) :
  (length (format_output content true) ≤ length content)%nat.
Proof.
  rewrite format_output_dis_eq. destruct (nonempty content); [|done].
  unfold keep_dis. rewrite fold_dis_step. cbn [app].
  rewrite <- (join_split content) at 2. apply length_kept.
Qed.

(** ** The handler *)

Section MoreStages.

Context (w : world).
Implicit Types (data : json) (fs : gmap text text) (e : event)
  (d : list (text * json)) (st : state).

Lemma answer_shape d out p :
  (∃ msg, answer w d out p = failure 500 msg)
  ∨ (∃ raw, files_after p !! out = Some raw
            ∧ answer w d out p
              = success
                  (if truthy (default (JBool true) (assoc (str "pretty") d))
                   then format_output (translate_newlines raw) (truthy (flag d))
                   else translate_newlines raw)
                  (flag d)
                  (default (JStr (str "unknown.lua"))
                     (assoc (str "filename") d))).
Proof.
  unfold answer. destruct (behaves p) as [msg|after rc so se]; [left; eauto|].
  destruct (timed_out _ after); [left; eauto|].
  destruct (negb (rc =? 0)%Z); [left; eauto|].
  destruct (files_after p !! out) as [raw|] eqn:E; [|left; eauto].
  destruct (open_refused w out); [left; eauto|].
  right. by exists raw.
Qed.

Lemma early_shape data fs resp fs' :
  early w data fs resp fs' →
  (∃ code msg, (code = 400%Z ∨ code = 500%Z) ∧ resp = failure code msg)
  ∧ (∀ p, p ≠ scratch w → fs' !! p = fs !! p).
Proof.
  destruct 1; (split; [eexists _, _; split; [|reflexivity]; auto|]);
    try done.
  intros p Hp. by rewrite lookup_insert_ne.
Qed.

(** The two outcomes of the verdict: no tool run, or exactly one. *)
Lemma verdict_cases d inp out fs1 ok :
  ((verdict w d inp out fs1 ok).1.2 = []
   ∧ (verdict w d inp out fs1 ok).2 = fs1
   ∧ ∃ msg, (verdict w d inp out fs1 ok).1.1 = failure 500 msg)
  ∨ (∃ cmd, ok = true
            ∧ command_line fs1 (mode d) inp out = Some cmd
            ∧ (verdict w d inp out fs1 ok).1.2 = [tool_step w cmd fs1]
            ∧ (verdict w d inp out fs1 ok).2
              = files_after (ev_proc (tool_step w cmd fs1))
            ∧ (verdict w d inp out fs1 ok).1.1
              = answer w d out (ev_proc (tool_step w cmd fs1))).
Proof.
  unfold verdict. destruct ok; [|left; eauto].
  destruct (command_line fs1 (mode d) inp out) as [cmd|]; [|left; eauto].
  right. by exists cmd.
Qed.

(** The build stage spawns at most two steps and leaves the files of its
    last step. *)
Lemma build_stage_bound fs log fs1 ok :
  build_stage w fs log fs1 ok →
  (length log ≤ 2)%nat ∧ files_left fs log = fs1
  ∧ Forall (λ e, ev_cwd e ≠ None) log.
Proof.
  destruct 1; split_and!; try done; cbn; try lia; repeat constructor; done.
Qed.

Lemma no_tool_among (log : list event) :
  Forall (λ e, ev_cwd e ≠ None) log →
  filter (λ e, ev_cwd e = None) log = [].
Proof.
  induction 1 as [|x l Hx _ IH]; [done|].
  rewrite filter_cons_False by done. exact IH.
Qed.

Lemma guarded_eq data inp out st :
  guarded w data inp out st
  = ((attempt w data inp out st).1,
     {| files := sweep w inp out (files (attempt w data inp out st).2);
        trace := trace (attempt w data inp out st).2 |}).
Proof.
  unfold guarded, try_finally.
  destruct (attempt w data inp out st) as [r st']. by rewrite cleanup_eq.
Qed.

End MoreStages.

(** X8. Every response has one of two shapes: HTTP 200 with [success]
    true, a string [result], a [format] that is "disassembly" or
    "bytecode", and the file name; or HTTP 400 or 500 with [success] false
    and an [error] string. *)
Theorem response_has_one_of_two_shapes
    (w : world) (data : json) (fs : gmap text text) :
  (∃ result fmt filename,
      (fmt = str "disassembly" ∨ fmt = str "bytecode")
      ∧ (deobfuscate w data (start fs)).1
        = {| status := 200;
             payload := [ (str "success", JBool true);
                          (str "result", JStr result);
                          (str "format", JStr fmt);
                          (str "original_filename", filename) ] |})
  ∨ (∃ code msg,
        (code = 400%Z ∨ code = 500%Z)
        ∧ (deobfuscate w data (start fs)).1
          = {| status := code;
               payload := [ (str "success", JBool false);
                            (str "error", JStr msg) ] |}).
Proof.
  destruct (deobfuscate_cases w data fs)
    as [(resp & fs' & -> & Hearly)
       |(d & s & log & fs1 & ok & -> & _ & _ & _ & _ & Hstage & ->)];
    cbn [fst].
  { right. by destruct (early_shape w _ _ _ _ Hearly) as [? _]. }
  destruct (verdict_cases w d (scratch w) (scratch_out w) fs1 ok)
    as [(_ & _ & msg & ->)|(cmd & _ & _ & _ & _ & ->)].
  { right. exists 500%Z, msg. split; [by right|done]. }
  destruct (answer_shape w d (scratch_out w) (ev_proc (tool_step w cmd fs1)))
    as [(msg & ->)|(raw & _ & ->)].
  { right. exists 500%Z, msg. split; [by right|done]. }
  left. eexists _, _, _. split; [|reflexivity].
  destruct (truthy (flag d)); [by left | by right].
Qed.

(** X9. A request spawns at most three processes, the tool at most once
    and last: nothing is retried and nothing runs after the tool. *)
Theorem at_most_three_processes_tool_last
    (w : world) (data : json) (fs : gmap text text) :
  (length (trace (deobfuscate w data (start fs)).2) ≤ 3)%nat
  ∧ (length (filter (λ e, ev_cwd e = None)
               (trace (deobfuscate w data (start fs)).2)) ≤ 1)%nat
  ∧ ∀ e, e ∈ trace (deobfuscate w data (start fs)).2 → tool_run e →
         last (trace (deobfuscate w data (start fs)).2) = Some e.
Proof.
  destruct (deobfuscate_cases w data fs)
    as [(resp & fs' & -> & _)
       |(d & s & log & fs1 & ok & -> & _ & _ & _ & _ & Hstage & ->)];
    cbn [fst snd trace].
  { split_and!; [cbn; lia | cbn; lia |]. by intros e ?%elem_of_nil. }
  destruct (build_stage_bound w _ _ _ _ Hstage) as (Hlen & _ & Hcwd).
  pose proof (no_tool_among log Hcwd) as Hnone.
  destruct (verdict_cases w d (scratch w) (scratch_out w) fs1 ok)
    as [(-> & _ & _)|(cmd & _ & _ & -> & _ & _)].
  - rewrite app_nil_r, Hnone. split_and!; [lia | cbn; lia |].
    intros e He Htool. rewrite Forall_forall in Hcwd. by destruct (Hcwd e He).
  - rewrite length_app, filter_app, Hnone, last_snoc. cbn [length app].
    split_and!; [lia | |].
    + rewrite filter_cons_True by done. cbn. lia.
    + intros e [He|He]%elem_of_app Htool.
      * rewrite Forall_forall in Hcwd. by destruct (Hcwd e He).
      * by apply list_elem_of_singleton in He as ->.
Qed.

(** X10. The tool is called as [<program> <mode> -i <input> -o <output>],
    where the program is one of the candidate paths or [dotnet] with the
    dll, the mode is [-dis] when the [disassembly] flag is truthy and
    [-dev] otherwise, and the two paths are the scratch files. *)
Theorem tool_command_line
    (w : world) (data : json) (fs : gmap text text) (e : event) :
  e ∈ trace (deobfuscate w data (start fs)).2 → tool_run e →
  ∃ d program,
    data = JDict d
    ∧ ((∃ exe, exe ∈ possible_paths ∧ program = [exe])
       ∨ program = [str "dotnet";
                    pjoin BUILD_PATH (str "MoonsecDeobfuscator.dll")])
    ∧ ev_argv e
      = program
        ++ [ (if truthy (default (JBool false) (assoc (str "disassembly") d))
              then str "-dis" else str "-dev");
             str "-i"; tmp_stem w ++ str ".lua";
             str "-o"; (tmp_stem w ++ str ".lua") ++ str ".output" ].
Proof.
  intros He Htool.
  destruct (tool_run_decides w data fs e He Htool) as (d & -> & _ & Hcmd & _).
  exists d. revert Hcmd. unfold command_line.
  pose proof (first_existing_spec (ev_files e) possible_paths) as Hfirst.
  destruct (first_existing (ev_files e) possible_paths) as [exe|].
  - intros [= <-]. exists [exe]. split_and!; [done| |done].
    left. exists exe. split; [|done].
    destruct Hfirst as (pre & post & -> & _). apply elem_of_app. right.
    apply elem_of_cons. by left.
  - destruct (bool_decide _); [|done]. intros [= <-].
    eexists. split_and!; [done| by right |done].
Qed.

(** X11. When the tool cannot be started, the response is HTTP 500 with
    "Processing error: " and the text of the error. *)
Theorem tool_that_cannot_start_is_a_processing_error
    (w : world) (data : json) (fs : gmap text text) (e : event) (msg : text) :
  e ∈ trace (deobfuscate w data (start fs)).2 → tool_run e →
  behaves (ev_proc e) = CannotStart msg →
  (deobfuscate w data (start fs)).1
  = failure 500 (str "Processing error: " ++ msg).
Proof.
  intros He Htool Hb.
  destruct (tool_run_decides w data fs e He Htool) as (d & -> & _ & _ & ->).
  unfold answer. by rewrite Hb.
Qed.

(** X12. When the tool exits in time with code 0 and there is no output
    file, the response is HTTP 500 "Output file was not created". *)
Theorem tool_without_output_is_an_error
    (w : world) (data : json) (fs : gmap text text) (e : event)
    (after : Q) (out err : text) :
  e ∈ trace (deobfuscate w data (start fs)).2 → tool_run e →
  behaves (ev_proc e) = Exits after 0 out err →
  (after <= 30 # 1)%Q →
  files_after (ev_proc e) !! scratch_out w = None →
  (deobfuscate w data (start fs)).1
  = failure 500 (str "Output file was not created").
Proof.
  intros He Htool Hb Hintime Hout.
  destruct (tool_run_decides w data fs e He Htool) as (d & -> & _ & _ & ->).
  unfold answer. rewrite Hb. apply Qle_bool_iff in Hintime.
  cbn [timed_out]. rewrite Hintime. cbn [negb Z.eqb]. by rewrite Hout.
Qed.

(** X13. What [os.unlink] does in the [finally] clause, refuse or not, is
    never seen by the caller: the response and the processes run are the
    same. *)
Theorem unlink_failures_do_not_reach_the_caller
    (w : world) (refused : text → option text) (data : json)
    (fs : gmap text text) :
  (deobfuscate (with_unlink w refused) data (start fs)).1
  = (deobfuscate w data (start fs)).1
  ∧ trace (deobfuscate (with_unlink w refused) data (start fs)).2
    = trace (deobfuscate w data (start fs)).2.
Proof.
  unfold deobfuscate, handle, bind.
  change (oops (with_unlink w refused)) with (oops w).
  change (exn_text (with_unlink w refused)) with (exn_text w).
  change (write_input (with_unlink w refused)) with (write_input w).
  destruct ((if negb (truthy data) then ret false
             else or_raise (oops w (NotAContainer (type_name data)))
                    (py_in (str "content") data)) (start fs))
    as [[e|has] st1]; [done|].
  destruct (negb has); [done|].
  destruct (path_exists MOONSEC_PATH st1) as [[e|have] st2]; [done|].
  destruct (negb have); [done|].
  destruct (write_input w data st2) as [[e|inp] st3]; [done|].
  rewrite !guarded_eq.
  change (attempt (with_unlink w refused)) with (attempt w).
  by destruct (attempt w data inp (inp ++ str ".output") st3) as [[e|r] st4].
Qed.

(** X14. Apart from its two scratch files, a request leaves every path as
    the last process it ran left it, or as it found it when it ran none:
    the handler itself touches nothing else. *)
Theorem other_files_are_untouched
    (w : world) (data : json) (fs : gmap text text) (p : text) :
  p ≠ scratch w → p ≠ scratch_out w →
  files (deobfuscate w data (start fs)).2 !! p
  = files_left fs (trace (deobfuscate w data (start fs)).2) !! p.
Proof.
  intros Hin Hout.
  destruct (deobfuscate_cases w data fs)
    as [(resp & fs' & -> & Hearly)
       |(d & s & log & fs1 & ok & -> & _ & _ & _ & _ & Hstage & ->)];
    cbn [fst snd trace files].
  { destruct (early_shape w _ _ _ _ Hearly) as [_ Hfs']. by apply Hfs'. }
  rewrite sweep_frame by done.
  destruct (build_stage_bound w _ _ _ _ Hstage) as (_ & Hleft & _).
  destruct (verdict_cases w d (scratch w) (scratch_out w) fs1 ok)
    as [(-> & -> & _)|(cmd & _ & _ & -> & -> & _)].
  - rewrite app_nil_r. unfold files_left in *.
    destruct (last log); [by rewrite Hleft|].
    rewrite <- Hleft. by rewrite lookup_insert_ne.
  - unfold files_left. by rewrite last_snoc.
Qed.


(** X16. [build_moonsec] never raises and always starts with the clean
    step.  The build step follows exactly when [subprocess.run] returned
    for the clean step: the process could be started and its output
    decodes (with [text=True] alone an output that does not decode makes
    [subprocess.run] raise).  It returns True exactly when, besides, the
    build step exited with code 0 and its output decodes.  The exit code
    of the clean step is ignored. *)
Theorem build_moonsec_result (w : world) (st : state) :
  let c := clean_step w (files st) in
  let b := build_step w (files_after (ev_proc c)) in
  let clean_returned :=
    (∃ after rc out err, behaves (ev_proc c) = Exits after rc out err)
    ∧ garbled (ev_proc c) = false in
  ∃ ok st',
    build_moonsec w st = (inr ok, st')
    ∧ (clean_returned → trace st' = trace st ++ [c; b])
    ∧ (¬ clean_returned → trace st' = trace st ++ [c])
    ∧ (ok = true
       ↔ clean_returned
         ∧ (∃ after out err, behaves (ev_proc b) = Exits after 0 out err)
         ∧ garbled (ev_proc b) = false).
Proof.
  intros c b clean_returned. subst clean_returned.
  unfold build_moonsec, try_except, bind, run, ret.
  cbn [files trace timed_out negb]. rewrite ?andb_true_r.
  fold (clean_step w (files st)). fold c.
  destruct (behaves (ev_proc c)) as [msg|after rc out err] eqn:Ec.
  { eexists _, _. split_and!; [done| | |].
    - by intros [(? & ? & ? & ? & ?) _].
    - done.
    - split; [done|]. by intros [[(? & ? & ? & ? & ?) _] _]. }
  destruct (garbled (ev_proc c)) eqn:Gc.
  { eexists _, _. split_and!; [done| | |].
    - by intros [_ ?].
    - done.
    - split; [done|]. by intros [[_ ?] _]. }
  cbn [files trace]. rewrite <- ?app_assoc. cbn [app]. rewrite ?andb_true_r.
  fold (build_step w (files_after (ev_proc c))). fold b.
  destruct (behaves (ev_proc b)) as [msg|after' rc' out' err'] eqn:Eb.
  { eexists _, _. split_and!; [done|done| |].
    - intros Hno. destruct Hno. split; [eauto|done].
    - split; [done|]. by intros (_ & (? & ? & ? & ?) & _). }
  destruct (garbled (ev_proc b)) eqn:Gb.
  { eexists _, _. split_and!; [done|done| |].
    - intros Hno. destruct Hno. split; [eauto|done].
    - split; [done|]. by intros (_ & _ & ?). }
  exists (rc' =? 0)%Z. eexists.
  split_and!; [by destruct (rc' =? 0)%Z | done | |].
  - intros Hno. destruct Hno. split; [eauto|done].
  - split.
    + intros ->%Z.eqb_eq. split_and!; eauto.
    + intros (_ & (? & ? & ? & [= _ -> _ _]) & _). done.
Qed.

Section Probe.

Context (w : world).

(** [check_dotnet] leaves the state of its one process, whatever it
    returns. *)
Lemma check_dotnet_eq (st : state) :
  ∃ ok,
    check_dotnet w st
    = (inr ok, {| files := files_after (ev_proc (version_step w (files st)));
                  trace := trace st ++ [version_step w (files st)] |}).
Proof.
  unfold check_dotnet, try_except, bind, run, ret.
  cbn [files trace]. fold (version_step w (files st)).
  destruct (behaves (ev_proc (version_step w (files st))))
    as [msg|after rc out err]; [by eexists|].
  destruct (timed_out _ after); [by eexists|].
  destruct (garbled _ && negb false); by eexists.
Qed.

End Probe.

(** X17. [check_dotnet] never raises and spawns exactly [dotnet
    --version] with a limit of five seconds; it returns True exactly when
    that process exits with code 0 within the limit and its output
    decodes (with [text=True] alone an output that does not decode makes
    [subprocess.run] raise, which the bare [except] turns into False). *)
Theorem check_dotnet_result (w : world) (st : state) :
  let probe := version_step w (files st) in
  ∃ ok,
    check_dotnet w st
    = (inr ok, {| files := files_after (ev_proc probe);
                  trace := trace st ++ [probe] |})
    ∧ (ok = true
       ↔ (∃ after out err, behaves (ev_proc probe) = Exits after 0 out err
                           ∧ (after <= 5 # 1)%Q)
         ∧ garbled (ev_proc probe) = false).
Proof.
  intros probe. unfold check_dotnet, try_except, bind, run, ret.
  cbn [files trace negb]. rewrite ?andb_true_r.
  fold (version_step w (files st)). fold probe.
  destruct (behaves (ev_proc probe)) as [msg|after rc out err] eqn:E.
  { exists false. split; [done|]. split; [done|].
    by intros [(? & ? & ? & ? & _) _]. }
  cbn [timed_out]. destruct (Qle_bool after (5 # 1)) eqn:Hle; cbn [negb].
  - destruct (garbled (ev_proc probe)) eqn:G.
    { exists false. split; [done|]. split; [done|]. by intros [_ ?]. }
    exists (rc =? 0)%Z. split; [done|]. split.
    + intros ->%Z.eqb_eq. split; [|done]. exists after, out, err.
      split; [done|]. by apply Qle_bool_iff.
    + intros [(? & ? & ? & [= _ -> _ _] & _) _]. done.
  - exists false. split; [done|]. split; [done|].
    intros [(? & ? & ? & [= <- _ _ _] & Hin) _].
    apply Qle_bool_iff in Hin. congruence.
Qed.

(** X18. [GET /health] always answers HTTP 200 with status "ok", also
    when [dotnet] is missing or hangs; the tool directory is looked up on
    the files the probe left, and when it is missing the response has
    [moonsec_exists] false and the timestamp 0. *)
Theorem health_always_answers
    (w : world) (getmtime : text → spec_float) (st : state) :
  let probe := version_step w (files st) in
  ∃ dotnet exists_ stamp,
    health w getmtime st
    = (inr {| status := 200;
              payload := [ (str "status", JStr (str "ok"));
                           (str "dotnet", JBool dotnet);
                           (str "moonsec_path", JStr MOONSEC_PATH);
                           (str "moonsec_exists", JBool exists_);
                           (str "timestamp", stamp) ] |},
       {| files := files_after (ev_proc probe);
          trace := trace st ++ [probe] |})
    ∧ (exists_ = true ↔ is_Some (files_after (ev_proc probe) !! MOONSEC_PATH))
    ∧ (exists_ = false → stamp = JInt 0)
    ∧ (exists_ = true → stamp = JFloat (getmtime MOONSEC_PATH)).
Proof.
  intros probe. unfold health, bind.
  destruct (check_dotnet_eq w st) as (ok & ->). fold probe.
  unfold path_exists, ret. cbn [files trace].
  exists ok, (bool_decide (is_Some (files_after (ev_proc probe) !! MOONSEC_PATH))).
  eexists. split; [reflexivity|].
  split_and!.
  - apply bool_decide_eq_true.
  - by intros ->.
  - by intros ->.
Qed.

(** X19. A request that passes validation while the tool directory is
    missing is answered with HTTP 500 and the path that was not found;
    no file is written and nothing is run. *)
Theorem missing_tool_directory_is_reported
    (w : world) (data : json) (fs : gmap text text) :
  truthy data = true → py_in (str "content") data = Some true →
  fs !! MOONSEC_PATH = None →
  deobfuscate w data (start fs)
  = (failure 500
       (str "MoonsecDeobfuscator not found at: MoonsecDeobfuscator-master"),
     start fs).
Proof.
  intros Ht Hin Hm. unfold deobfuscate, handle, bind.
  rewrite Ht. cbn [negb]. rewrite Hin. cbn [or_raise ret negb].
  unfold path_exists. cbn [files start].
  rewrite bool_decide_eq_false_2; [done|]. rewrite Hm. by intros [? ?].
Qed.

(** X20. A request that passes validation but whose [content] cannot be
    written (the body has no string key to index, the content is not a
    string, or it holds a lone surrogate) is answered by the outer handler
    with HTTP 500 "Server error: ..."; nothing is run, and the empty
    temporary file is what the request leaves. *)
Theorem unwritable_content_is_a_server_error
    (w : world) (data : json) (fs : gmap text text) (f : fault) :
  truthy data = true → py_in (str "content") data = Some true →
  is_Some (fs !! MOONSEC_PATH) →
  content_of data = inl f →
  deobfuscate w data (start fs)
  = (failure 500 (str "Server error: " ++ wording w f),
     {| files := <[scratch w := []]> fs; trace := [] |}).
Proof.
  intros Ht Hin Hm Hc. apply scratch_file_left_behind; try done.
  unfold validated. by rewrite Ht.
Qed.

(** ** The further properties on samples *)

(** In the output for [f(){a;b}] the line [a;] ends with its semicolon. *)
Lemma format_output_bytecode_places_witness :
  (SEMI = SEMI ∨ SEMI = LBRACE → @nil char = []) ∧ (SEMI = RBRACE → str "a" = []).
Proof.
  apply (format_output_bytecode_places (str "f(){a;b}") (str "a;") (str "a") []).
  - apply (list_elem_of_lookup_2 _ 1). reflexivity.
  - reflexivity.
Defined.

(** A text of two lines without semicolon or brace. *)
Lemma format_output_modes_agree_witness :
  format_output (str "a  " ++ [NL] ++ str " b") false
  = format_output (str "a  " ++ [NL] ++ str " b") true.
Proof.
  apply format_output_modes_agree_on_plain_text.
  repeat (constructor; [by vm_compute|]). constructor.
Defined.

(** A request for which the tool is built first: three processes, the
    tool last. *)
Lemma at_most_three_processes_witness :
  last (trace (deobfuscate w_fine (post (str "print(1)")) (start fs_sources)).2)
  = Some (sample_run_after_build w_fine (str "print(1)")).
Proof.
  destruct (at_most_three_processes_tool_last w_fine (post (str "print(1)"))
              fs_sources) as (_ & _ & Hlast).
  apply Hlast; [|reflexivity].
  apply (list_elem_of_lookup_2 _ 2).
  match goal with
  | |- ?t !! 2%nat = Some ?e =>
      let H := fresh in
      assert (t !! 2%nat = Some e) as H by (vm_cast_no_check (eq_refl (Some e)));
      exact H
  end.
Defined.

Lemma tool_command_line_witness :
  ∃ d program,
    post (str "print(1)") = JDict d
    ∧ ((∃ exe, exe ∈ possible_paths ∧ program = [exe])
       ∨ program = [str "dotnet";
                    pjoin BUILD_PATH (str "MoonsecDeobfuscator.dll")])
    ∧ ev_argv (sample_run w_fine (str "print(1)"))
      = program
        ++ [ (if truthy (default (JBool false) (assoc (str "disassembly") d))
              then str "-dis" else str "-dev");
             str "-i"; tmp_stem w_fine ++ str ".lua";
             str "-o"; (tmp_stem w_fine ++ str ".lua") ++ str ".output" ].
Proof.
  apply (tool_command_line w_fine (post (str "print(1)")) fs_built).
  - only_run.
  - reflexivity.
Defined.

(** A tool that may not be executed. *)
Lemma tool_that_cannot_start_witness :
  (deobfuscate w_broken (post (str "print(1)")) (start fs_built)).1
  = failure 500 (str "Processing error: " ++ str "[Errno 13] Permission denied").
Proof.
  apply (tool_that_cannot_start_is_a_processing_error w_broken
           (post (str "print(1)")) fs_built (sample_run w_broken (str "print(1)"))).
  - only_run.
  - reflexivity.
  - reflexivity.
Defined.

(** A tool that exits with 0 and writes nothing. *)
Lemma tool_without_output_witness :
  (deobfuscate w_silent (post (str "print(1)")) (start fs_built)).1
  = failure 500 (str "Output file was not created").
Proof.
  apply (tool_without_output_is_an_error w_silent (post (str "print(1)"))
           fs_built (sample_run w_silent (str "print(1)")) (1 # 1) [] []).
  - only_run.
  - reflexivity.
  - reflexivity.
  - by vm_compute.
  - vm_compute. reflexivity.
Defined.

(** The tool directory after a successful request. *)
Lemma other_files_are_untouched_witness :
  files (deobfuscate w_fine (post (str "print(1)")) (start fs_built)).2
    !! MOONSEC_PATH
  = files_left fs_built
      (trace (deobfuscate w_fine (post (str "print(1)")) (start fs_built)).2)
    !! MOONSEC_PATH.
Proof.
  apply other_files_are_untouched; by vm_compute.
Defined.


(** A machine with neither [dotnet] nor the tool directory. *)
Lemma health_witness :
  ∃ dotnet exists_ stamp,
    health w_bare (λ _, S754_zero false) (start ∅)
    = (inr {| status := 200;
              payload := [ (str "status", JStr (str "ok"));
                           (str "dotnet", JBool dotnet);
                           (str "moonsec_path", JStr MOONSEC_PATH);
                           (str "moonsec_exists", JBool exists_);
                           (str "timestamp", stamp) ] |},
       {| files := files_after (ev_proc (version_step w_bare ∅));
          trace := [version_step w_bare ∅] |})
    ∧ (exists_ = true
       ↔ is_Some (files_after (ev_proc (version_step w_bare ∅)) !! MOONSEC_PATH))
    ∧ (exists_ = false → stamp = JInt 0)
    ∧ (exists_ = true → stamp = JFloat (S754_zero false)).
Proof.
  exact (health_always_answers w_bare (λ _, S754_zero false) (start ∅)).
Defined.

Lemma missing_tool_directory_witness :
  deobfuscate w_bare (post (str "print(1)")) (start ∅)
  = (failure 500
       (str "MoonsecDeobfuscator not found at: MoonsecDeobfuscator-master"),
     start ∅).
Proof.
  apply missing_tool_directory_is_reported.
  - reflexivity.
  - vm_compute. reflexivity.
  - reflexivity.
Defined.

(** An array that holds the string [content]: it passes the membership
    test and cannot be indexed by a string. *)
Lemma unwritable_content_witness :
  deobfuscate w_fine (JList [JStr (str "content")]) (start fs_built)
  = (failure 500
       (str "Server error: "
        ++ cpython_wording (NotSubscriptable (str "list"))),
     {| files := <[scratch w_fine := []]> fs_built; trace := [] |}).
Proof.
  apply (unwritable_content_is_a_server_error w_fine
           (JList [JStr (str "content")]) fs_built
           (NotSubscriptable (str "list"))).
  - reflexivity.
  - vm_compute. reflexivity.
  - exists []. vm_compute. reflexivity.
  - reflexivity.
Defined.
